(** * BlinkLoad: the blink detector of [src/blink_detector.py] and the
    eye-aspect-ratio estimator of [src/ear.py].

    Python floats are modelled by exact rationals [Q] in the detector (the
    code only adds, subtracts, multiplies, divides and compares them) and by
    reals [R] in the estimator (which takes Euclidean norms).  Python's
    [int] is [Z].  A call that raises returns the state reached at the
    point of the raise together with [Raise]. *)

From Stdlib Require Import QArith ZArith List Bool Lia Reals Lra Sorted.
From Stdlib Require Lqa.
Import ListNotations.

Module Detector.

Local Open Scope Q_scope.

(** ** Module constants (blink_detector.py, lines 4-10) *)

Definition EAR_THRESHOLD : Q := 22 # 100.
Definition EAR_CONSEC_FRAMES : Z := 3%Z.
Definition WINDOW_SIZE_SEC : Q := 30.
Definition MIN_BLINK_DURATION : Q := 100.
Definition MAX_BLINK_DURATION : Q := 400.

(** Python's [a < b] on floats. *)
Definition Qlt_bool (x y : Q) : bool := negb (Qle_bool y x).

(** ** Data *)

(** [{"timestamp": t, "duration": d}] in [self.blink_events]. *)
Record blink_event := mkBlinkEvent {
  ev_timestamp : Q;
  ev_duration : Q
}.

(** [{"timestamp": t, "ear": e}] in [self.ear_open_events]. *)
Record ear_event := mkEarEvent {
  eo_timestamp : Q;
  eo_ear : Q
}.

(** The attributes of a [BlinkDetector] object. *)
Record BlinkDetector := mkDetector {
  threshold : Q;
  consec_frames : Z;
  counter : Z;
  total_blinks : Z;
  blink_events : list blink_event;
  ear_open_events : list ear_event;
  start_timestamp : option Q
}.

(** Attribute assignments [self.x = v]. *)
Definition set_counter (c : Z) (s : BlinkDetector) : BlinkDetector :=
  mkDetector s.(threshold) s.(consec_frames) c s.(total_blinks)
    s.(blink_events) s.(ear_open_events) s.(start_timestamp).
Definition set_total_blinks (n : Z) (s : BlinkDetector) : BlinkDetector :=
  mkDetector s.(threshold) s.(consec_frames) s.(counter) n
    s.(blink_events) s.(ear_open_events) s.(start_timestamp).
Definition set_blink_events (l : list blink_event) (s : BlinkDetector) : BlinkDetector :=
  mkDetector s.(threshold) s.(consec_frames) s.(counter) s.(total_blinks)
    l s.(ear_open_events) s.(start_timestamp).
Definition set_ear_open_events (l : list ear_event) (s : BlinkDetector) : BlinkDetector :=
  mkDetector s.(threshold) s.(consec_frames) s.(counter) s.(total_blinks)
    s.(blink_events) l s.(start_timestamp).
Definition set_start_timestamp (t : option Q) (s : BlinkDetector) : BlinkDetector :=
  mkDetector s.(threshold) s.(consec_frames) s.(counter) s.(total_blinks)
    s.(blink_events) s.(ear_open_events) t.

(** Exceptions a call can raise; [TypeError] is [float - None]. *)
Inductive exn := TypeError.

Inductive outcome (A : Type) :=
| Ret (a : A)
| Raise (e : exn).
Arguments Ret {A} a.
Arguments Raise {A} e.

(** ** [BlinkDetector.__init__] (lines 18-25) *)

Definition init (thr : Q) (cf : Z) : BlinkDetector :=
  {| threshold := thr;
     consec_frames := cf;
     counter := 0%Z;
     total_blinks := 0%Z;
     blink_events := [];
     ear_open_events := [];
     start_timestamp := None |}.

(** [BlinkDetector()] with the default arguments. *)
Definition init_default : BlinkDetector := init EAR_THRESHOLD EAR_CONSEC_FRAMES.

(** ** [BlinkDetector.update] (lines 27-70), with [current_time] given. *)

(** The closure evaluation of lines 45-56; [None] when
    [current_time - self.start_timestamp] raises because the start is
    [None]. *)
Definition evaluate_closure (s : BlinkDetector) (current_time : Q)
  : option BlinkDetector :=
  if Z.leb s.(consec_frames) s.(counter) then
    match s.(start_timestamp) with
    | None => None
    | Some st =>
        let duration := (current_time - st) * 1000 in
        if Qle_bool MIN_BLINK_DURATION duration
           && Qle_bool duration MAX_BLINK_DURATION then
          let s1 := set_total_blinks (s.(total_blinks) + 1)%Z s in
          Some (set_blink_events
                  (s1.(blink_events) ++ [mkBlinkEvent current_time duration]) s1)
        else Some s
    end
  else Some s.

Definition update (s : BlinkDetector) (left_ear right_ear current_time : Q)
  : BlinkDetector * outcome bool :=
  let avg_ear := (left_ear + right_ear) / 2 in
  if Qlt_bool left_ear s.(threshold) && Qlt_bool right_ear s.(threshold) then
    let s1 := if Z.eqb s.(counter) 0
              then set_start_timestamp (Some current_time) s else s in
    (set_counter (s1.(counter) + 1)%Z s1, Ret true)
  else
    match evaluate_closure s current_time with
    | None => (s, Raise TypeError)
    | Some s1 =>
        let s2 := set_start_timestamp None (set_counter 0%Z s1) in
        if Qlt_bool s.(threshold) avg_ear then
          (set_ear_open_events
             (s2.(ear_open_events) ++ [mkEarEvent current_time avg_ear]) s2,
           Ret false)
        else (s2, Ret false)
    end.

(** A frame counts as closed when both eyes are below the threshold. *)
Definition both_closed (s : BlinkDetector) (l r : Q) : bool :=
  Qlt_bool l s.(threshold) && Qlt_bool r s.(threshold).

(** A sample [(left_ear, right_ear, current_time)]. *)
Definition sample : Type := (Q * Q * Q)%type.

(** Feeding a list of samples in order; stops at the first raise. *)
Fixpoint run (s : BlinkDetector) (xs : list sample)
  : BlinkDetector * list (outcome bool) :=
  match xs with
  | [] => (s, [])
  | (l, r, t) :: rest =>
      let '(s1, o) := update s l r t in
      match o with
      | Raise _ => (s1, [o])
      | Ret _ => let '(s2, os) := run s1 rest in (s2, o :: os)
      end
  end.

(** The state [update] leaves after its open branch (lines 58-68), given
    the state [s1] after the closure evaluation. *)
Definition after_open (s s1 : BlinkDetector) (l r t : Q) : BlinkDetector :=
  let s2 := set_start_timestamp None (set_counter 0%Z s1) in
  if Qlt_bool (threshold s) ((l + r) / 2)
  then set_ear_open_events (ear_open_events s2 ++ [mkEarEvent t ((l + r) / 2)]) s2
  else s2.

(** The data-model invariant: [consecutiveClosedFrames > 0] exactly when
    [closureStartTime] is set. *)
Definition inv (s : BlinkDetector) : Prop :=
  (0 < counter s)%Z <-> start_timestamp s <> None.

(** Timestamp of frame [k] of a 30 fps stream starting at [t0]. *)
Definition fps30 (t0 : Q) (k : nat) : Q := t0 + inject_Z (Z.of_nat k) * (1 # 30).

(** [n] frames at 30 fps with the EARs [(lc, rc)], then one frame with
    [(lo, ro)]. *)
Definition closure_scenario (lc rc lo ro t0 : Q) (n : nat) : list sample :=
  map (fun k => (lc, rc, fps30 t0 k)) (seq 0 n) ++ [(lo, ro, fps30 t0 n)].

(** ** [BlinkDetector.get_metrics] (lines 72-139) and
    [BlinkDetector.get_window_count] (lines 141-150) *)

(** [current_time - e["timestamp"] <= WINDOW_SIZE_SEC]: the entry is kept. *)
Definition in_window (current_time ts : Q) : bool :=
  Qle_bool (current_time - ts) WINDOW_SIZE_SEC.

Definition evict_blinks (current_time : Q) (l : list blink_event) : list blink_event :=
  filter (fun e => in_window current_time e.(ev_timestamp)) l.

Definition evict_ears (current_time : Q) (l : list ear_event) : list ear_event :=
  filter (fun e => in_window current_time e.(eo_timestamp)) l.

(** Python's [sum(xs)]: [0 + x0 + x1 + ...]. *)
Definition py_sum (xs : list Q) : Q := fold_left Qplus xs 0.

(** Python's [len(xs)] as a number. *)
Definition py_len {A} (xs : list A) : Q := inject_Z (Z.of_nat (length xs)).

(** The metrics dict [{"br", "mbd", "bdv", "ibi", "bbi", "esi"}]. *)
Record metrics := mkMetrics {
  br : Q; mbd : Q; bdv : Q; ibi : Q; bbi : Q; esi : Q
}.

(** Python's [ts[i]], the index being in range where it is used. *)
Definition ts_at (evs : list blink_event) (i : nat) : Q :=
  nth i (map ev_timestamp evs) 0.

(** [intervals] of lines 117-120: [ts[i] - ts[i-1]] for [i in range(1, count)]. *)
Definition intervals (evs : list blink_event) : list Q :=
  map (fun i => ts_at evs i - ts_at evs (i - 1)) (seq 1 (length evs - 1)).

(** One iteration of the burst loop (lines 127-133) on [(bursts, in_burst)]. *)
Definition burst_step (evs : list blink_event) (acc : Z * bool) (i : nat) : Z * bool :=
  let '(bursts, in_burst) := acc in
  if Qle_bool (ts_at evs i - ts_at evs (i - 1)) 2 then
    if negb in_burst then ((bursts + 1)%Z, true) else (bursts, in_burst)
  else (bursts, false).

Definition burst_count (evs : list blink_event) : Z :=
  fst (fold_left (burst_step evs) (seq 1 (length evs - 1)) (0%Z, false)).

(** Following the spec's words (not the code): the gaps between
    consecutive accepted-event timestamps, and their mean. *)
Fixpoint spec_consecutive_gaps (evs : list blink_event) : list Q :=
  match evs with
  | a :: ((b :: _) as rest) => (ev_timestamp b - ev_timestamp a) :: spec_consecutive_gaps rest
  | _ => []
  end.

Definition spec_mean_gap (evs : list blink_event) : Q :=
  py_sum (spec_consecutive_gaps evs) / py_len (spec_consecutive_gaps evs).

Section Metrics.

(** Python's [x ** 0.5]; the theorems about [get_metrics] hold for every
    choice of it. *)
Variable pow_half : Q -> Q.

(** Lines 91-96. *)
Definition esi_of (ears_l : list ear_event) : Q :=
  if Nat.ltb 1 (length ears_l) then
    let ears := map eo_ear ears_l in
    let mean_ear := py_sum ears / py_len ears in
    let variance_ear :=
      py_sum (map (fun e => (e - mean_ear) * (e - mean_ear)) ears) / py_len ears in
    pow_half variance_ear
  else 0.

(** Lines 98-139, from the evicted lists. *)
Definition compute_metrics (evs : list blink_event) (ears_l : list ear_event) : metrics :=
  let count := length evs in
  let esi_v := esi_of ears_l in
  if Nat.eqb count 0 then mkMetrics 0 0 0 0 0 esi_v
  else
    let br_v := py_len evs / (WINDOW_SIZE_SEC / 60) in
    let durations := map ev_duration evs in
    let mbd_v := py_sum durations / py_len evs in
    let bdv_v :=
      if Nat.ltb 1 count then
        py_sum (map (fun d => (d - mbd_v) * (d - mbd_v)) durations) / py_len evs
      else 0 in
    if Nat.ltb 1 count then
      let ivs := intervals evs in
      let ibi_v := py_sum ivs / py_len ivs in
      let bbi_v := inject_Z (burst_count evs) / py_len evs in
      mkMetrics br_v mbd_v bdv_v ibi_v bbi_v esi_v
    else mkMetrics br_v mbd_v bdv_v 0 0 esi_v.

Definition get_metrics (s : BlinkDetector) (current_time : Q) : BlinkDetector * metrics :=
  let s1 := set_blink_events (evict_blinks current_time s.(blink_events)) s in
  let s2 := set_ear_open_events (evict_ears current_time s1.(ear_open_events)) s1 in
  (s2, compute_metrics s2.(blink_events) s2.(ear_open_events)).

End Metrics.

Definition get_window_count (s : BlinkDetector) (current_time : Q) : BlinkDetector * nat :=
  let s1 := set_blink_events (evict_blinks current_time s.(blink_events)) s in
  (s1, length s1.(blink_events)).

(** ** State predicates kept by the operations *)

(** Every stored event has a duration within the physiological bounds. *)
Definition durations_ok (s : BlinkDetector) : Prop :=
  Forall (fun e => MIN_BLINK_DURATION <= ev_duration e <= MAX_BLINK_DURATION) (blink_events s).

(** Every stored open-eye EAR sample is above the threshold. *)
Definition open_ears_ok (s : BlinkDetector) : Prop :=
  Forall (fun e => threshold s < eo_ear e) (ear_open_events s).

(** The window never holds more events than the lifetime count. *)
Definition count_ok (s : BlinkDetector) : Prop :=
  (Z.of_nat (length (blink_events s)) <= total_blinks s)%Z.

(** The time of a sample. *)
Definition sample_time (x : sample) : Q := let '(_, _, t) := x in t.

(** The EARs of a sample, as the loop of src/main.py sees them. *)
Definition drop_time (x : sample) : Q * Q := let '(l, r, _) := x in (l, r).

(** The stored timestamps of both lists, each followed by the times still
    to be fed, in nondecreasing order. *)
Definition events_then (s : BlinkDetector) (ts : list Q) : Prop :=
  StronglySorted Qle (map ev_timestamp (blink_events s) ++ ts) /\
  StronglySorted Qle (map eo_timestamp (ear_open_events s) ++ ts).

End Detector.

(** ** [calculate_ear] (src/ear.py, lines 14-54) *)

Module Ear.

Local Open Scope R_scope.

(** A MediaPipe landmark [landmarks.landmark[i]]: normalised [x], [y]. *)
Record landmark := mkLandmark { lx : R; ly : R }.

(** The [landmarks] argument: [None] is an object with no [landmark]
    attribute. *)
Definition landmarks_obj : Type := option (list landmark).

(** The exceptions caught by the [except (IndexError, AttributeError)]. *)
Inductive ear_exn := IndexError | AttributeError.

Inductive result (A : Type) :=
| Ok (a : A)
| Err (e : ear_exn).
Arguments Ok {A} a.
Arguments Err {A} e.

Definition rbind {A B} (m : result A) (k : A -> result B) : result B :=
  match m with
  | Ok a => k a
  | Err e => Err e
  end.

Notation "x <- m ;; k" := (rbind m (fun x => k))
  (at level 61, m at next level, right associativity).

(** Python's [xs[i]] with negative indices counted from the end. *)
Definition py_index {A} (xs : list A) (i : Z) : result A :=
  let n := Z.of_nat (length xs) in
  let j := if (0 <=? i)%Z then i else (n + i)%Z in
  if (0 <=? j)%Z then
    match nth_error xs (Z.to_nat j) with
    | Some a => Ok a
    | None => Err IndexError
    end
  else Err IndexError.

(** A 2-D point [np.array([x, y])]. *)
Definition point : Type := (R * R)%type.

(** [np.array([landmarks.landmark[idx].x * w, landmarks.landmark[idx].y * h])]. *)
Definition pixel (lms : landmarks_obj) (idx : Z) (w h : R) : result point :=
  match lms with
  | None => Err AttributeError
  | Some l => p <- py_index l idx ;; Ok (lx p * w, ly p * h)
  end.

Fixpoint map_result {A B} (f : A -> result B) (xs : list A) : result (list B) :=
  match xs with
  | [] => Ok []
  | x :: rest => y <- f x ;; ys <- map_result f rest ;; Ok (y :: ys)
  end.

(** [np.linalg.norm(p - q)]. *)
Definition np_norm_diff (p q : point) : R :=
  R_sqrt.sqrt ((fst p - fst q) * (fst p - fst q) + (snd p - snd q) * (snd p - snd q)).

(** A numpy float64: a finite value, an infinity or nan. *)
Inductive f64 := Fin (r : R) | PosInf | NegInf | NaN.

(** [a / b] on numpy float64 values: division by zero gives an infinity or
    nan (with a RuntimeWarning), not an exception. *)
Definition np_div (a b : R) : f64 :=
  if Req_EM_T b 0 then
    if Rlt_dec 0 a then PosInf else if Rlt_dec a 0 then NegInf else NaN
  else Fin (a / b).

(** The body of the [try] block, lines 33-51. *)
Definition ear_body (lms : landmarks_obj) (horizontal_indices : list Z)
    (vertical_indices : list (Z * Z)) (w h : R) : result f64 :=
  horiz_pts <- map_result (fun idx => pixel lms idx w h) horizontal_indices ;;
  vert_pts <- map_result (fun '(v1, v2) =>
                 v1_pt <- pixel lms v1 w h ;;
                 v2_pt <- pixel lms v2 w h ;;
                 Ok (v1_pt, v2_pt)) vertical_indices ;;
  vp0 <- py_index vert_pts 0 ;;
  vp1 <- py_index vert_pts 1 ;;
  let v_dist1 := np_norm_diff (fst vp0) (snd vp0) in
  let v_dist2 := np_norm_diff (fst vp1) (snd vp1) in
  hp0 <- py_index horiz_pts 0 ;;
  hp1 <- py_index horiz_pts 1 ;;
  let h_dist := np_norm_diff hp0 hp1 in
  Ok (np_div (v_dist1 + v_dist2) (2 * h_dist)).

Definition calculate_ear (lms : landmarks_obj) (horizontal_indices : list Z)
    (vertical_indices : list (Z * Z)) (w h : R) : f64 :=
  match ear_body lms horizontal_indices vertical_indices w h with
  | Ok ear => ear
  | Err _ => Fin 0
  end.

End Ear.

(** ** The inline blink counter of [main()] (src/main.py, lines 16-18,
    61-62 and 96-103)

    One iteration of the capture loop on a frame where a face is found
    (with [max_num_faces=1] there is at most one); frames without a face
    leave [blink_counter] and [total_blinks] unchanged and are not
    modelled. *)

Module MainLoop.

Local Open Scope Q_scope.

Definition EAR_THRESHOLD : Q := 22 # 100.
Definition EAR_CONSEC_FRAMES : Z := 3%Z.

(** The loop variables [blink_counter] and [total_blinks]. *)
Record main_state := mkMain {
  blink_counter : Z;
  m_total_blinks : Z
}.

Definition main_init : main_state := mkMain 0 0.

Definition main_frame (st : main_state) (left_ear right_ear : Q) : main_state :=
  if Detector.Qlt_bool left_ear EAR_THRESHOLD && Detector.Qlt_bool right_ear EAR_THRESHOLD
  then mkMain (blink_counter st + 1) (m_total_blinks st)
  else mkMain 0 (if Z.leb EAR_CONSEC_FRAMES (blink_counter st)
                 then (m_total_blinks st + 1)%Z else m_total_blinks st).

Fixpoint main_run (st : main_state) (xs : list (Q * Q)) : main_state :=
  match xs with
  | [] => st
  | (l, r) :: rest => main_run (main_frame st l r) rest
  end.

End MainLoop.

(** * Properties of the detector *)

Module DetectorFacts.

Import Detector.
Local Open Scope Q_scope.

(** ** General facts *)

Lemma Qlt_bool_iff (x y : Q) : Qlt_bool x y = true <-> x < y.
Proof.
  unfold Qlt_bool. rewrite negb_true_iff. split; intro H.
  - apply Qnot_le_lt. intro H'. apply Qle_bool_iff in H'. congruence.
  - destruct (Qle_bool y x) eqn:E; [|reflexivity].
    apply Qle_bool_iff in E. exfalso. apply (Qlt_not_le _ _ H E).
Qed.

Lemma Qle_bool_Qeq (x x' y y' : Q) : x == x' -> y == y' -> Qle_bool x y = Qle_bool x' y'.
Proof.
  intros Hx Hy. apply eq_true_iff_eq. rewrite !Qle_bool_iff, Hx, Hy. reflexivity.
Qed.

Lemma both_closed_false (s : BlinkDetector) (l r : Q) :
  threshold s <= l \/ threshold s <= r -> both_closed s l r = false.
Proof.
  intros H. unfold both_closed.
  destruct (Qlt_bool l _) eqn:El, (Qlt_bool r _) eqn:Er; try reflexivity.
  apply Qlt_bool_iff in El. apply Qlt_bool_iff in Er.
  destruct H as [H|H]; exfalso; [apply (Qlt_not_le _ _ El H) | apply (Qlt_not_le _ _ Er H)].
Qed.

Lemma both_closed_true (s : BlinkDetector) (l r : Q) :
  l < threshold s -> r < threshold s -> both_closed s l r = true.
Proof.
  intros Hl Hr. unfold both_closed.
  apply Qlt_bool_iff in Hl. apply Qlt_bool_iff in Hr. rewrite Hl, Hr. reflexivity.
Qed.

(** ** The two branches of [update] *)

Lemma update_closed (s : BlinkDetector) (l r t : Q) :
  both_closed s l r = true ->
  update s l r t =
    (set_counter
       ((if Z.eqb (counter s) 0 then set_start_timestamp (Some t) s else s).(counter) + 1)%Z
       (if Z.eqb (counter s) 0 then set_start_timestamp (Some t) s else s),
     Ret true).
Proof. unfold update, both_closed. intros ->. reflexivity. Qed.

Lemma update_open (s : BlinkDetector) (l r t : Q) :
  both_closed s l r = false ->
  update s l r t =
    match evaluate_closure s t with
    | None => (s, Raise TypeError)
    | Some s1 => (after_open s s1 l r t, Ret false)
    end.
Proof.
  unfold update, both_closed. intros ->.
  destruct (evaluate_closure s t); [|reflexivity].
  unfold after_open. destruct (Qlt_bool _ _); reflexivity.
Qed.

Lemma after_open_fields (s s1 : BlinkDetector) (l r t : Q) :
  let s' := after_open s s1 l r t in
  counter s' = 0%Z /\ start_timestamp s' = None /\
  total_blinks s' = total_blinks s1 /\ blink_events s' = blink_events s1 /\
  threshold s' = threshold s1 /\ consec_frames s' = consec_frames s1.
Proof. unfold after_open. destruct (Qlt_bool _ _); repeat split. Qed.

(** The accepted/rejected outcome of [evaluate_closure] once the start is
    known. *)
Lemma evaluate_closure_some (s : BlinkDetector) (t0 t : Q) :
  start_timestamp s = Some t0 ->
  let d := (t - t0) * 1000 in
  evaluate_closure s t =
    Some (if Z.leb (consec_frames s) (counter s)
             && (Qle_bool MIN_BLINK_DURATION d && Qle_bool d MAX_BLINK_DURATION)
          then set_blink_events (blink_events s ++ [mkBlinkEvent t d])
                 (set_total_blinks (total_blinks s + 1)%Z s)
          else s).
Proof.
  intros Hs d. unfold evaluate_closure. rewrite Hs.
  destruct (Z.leb _ _); simpl; [|reflexivity].
  destruct (Qle_bool _ _ && Qle_bool _ _); reflexivity.
Qed.

(** ** Runs of samples *)

Lemma set_counter_twice (a b : Z) (s : BlinkDetector) :
  set_counter a (set_counter b s) = set_counter a s.
Proof. reflexivity. Qed.

Lemma run_cons_ret (s s1 : BlinkDetector) (l r t : Q) (b : bool) (xs : list sample) :
  update s l r t = (s1, Ret b) ->
  run s ((l, r, t) :: xs) = (fst (run s1 xs), Ret b :: snd (run s1 xs)).
Proof. intros H. simpl. rewrite H. destruct (run s1 xs). reflexivity. Qed.

(** Further closed frames only extend the counter of a closure in
    progress. *)
Lemma run_closed_prefix (xs : list sample) (s : BlinkDetector) (ys : list sample) :
  Forall (fun '(l, r, _) => both_closed s l r = true) xs ->
  (0 < counter s)%Z ->
  run s (xs ++ ys) =
    (fst (run (set_counter (counter s + Z.of_nat (length xs))%Z s) ys),
     repeat (Ret true) (length xs)
       ++ snd (run (set_counter (counter s + Z.of_nat (length xs))%Z s) ys)).
Proof.
  revert s. induction xs as [|[[l r] t] xs IH]; intros s Hall Hc.
  - simpl. rewrite Z.add_0_r. destruct s; simpl. destruct (run _ ys); reflexivity.
  - inversion Hall as [|? ? Hx Hrest]; subst.
    simpl app. rewrite (run_cons_ret s (set_counter (counter s + 1)%Z s) l r t true).
    2:{ rewrite update_closed by exact Hx.
        destruct (Z.eqb_spec (counter s) 0); [lia|reflexivity]. }
    rewrite IH.
    + rewrite set_counter_twice. cbn [counter set_counter length].
      replace (counter s + 1 + Z.of_nat (length xs))%Z
        with (counter s + Z.of_nat (S (length xs)))%Z by lia.
      reflexivity.
    + destruct s; exact Hrest.
    + simpl. lia.
Qed.

Lemma accept_cond_iff (cf c : Z) (d : Q) :
  (Z.leb cf c && (Qle_bool MIN_BLINK_DURATION d && Qle_bool d MAX_BLINK_DURATION)) = true
  <-> (cf <= c)%Z /\ MIN_BLINK_DURATION <= d <= MAX_BLINK_DURATION.
Proof. rewrite !andb_true_iff, Z.leb_le, !Qle_bool_iff. tauto. Qed.

(** ** The invariant of the data model *)

Lemma inv_start (s : BlinkDetector) :
  inv s -> (0 < counter s)%Z -> exists t0, start_timestamp s = Some t0.
Proof.
  intros Hi Hc. destruct (start_timestamp s) eqn:E; eauto.
  exfalso. apply Hi in Hc. congruence.
Qed.

(** A fresh detector fed [S n] closed frames at 30 fps and then one open
    frame. *)
Lemma scenario_run (thr : Q) (cf : Z) (lc rc lo ro t0 : Q) (n : nat) :
  lc < thr -> rc < thr -> (thr <= lo \/ thr <= ro) ->
  let res := run (init thr cf) (closure_scenario lc rc lo ro t0 (S n)) in
  let d := (fps30 t0 (S n) - fps30 t0 0) * 1000 in
  snd res = repeat (Ret true) (S n) ++ [Ret false] /\
  counter (fst res) = 0%Z /\ start_timestamp (fst res) = None /\
  (if Z.leb cf (Z.of_nat (S n)) && (Qle_bool MIN_BLINK_DURATION d && Qle_bool d MAX_BLINK_DURATION)
   then total_blinks (fst res) = 1%Z /\ blink_events (fst res) = [mkBlinkEvent (fps30 t0 (S n)) d]
   else total_blinks (fst res) = 0%Z /\ blink_events (fst res) = []).
Proof.
  intros Hlc Hrc Hopen res d. subst res.
  unfold closure_scenario. cbn [seq map app].
  set (s0 := init thr cf).
  set (s1 := set_counter 1 (set_start_timestamp (Some (fps30 t0 0)) s0)).
  rewrite (run_cons_ret s0 s1 lc rc (fps30 t0 0) true).
  2:{ rewrite update_closed by (apply both_closed_true; assumption). reflexivity. }
  rewrite run_closed_prefix.
  2:{ apply Forall_forall. intros [[l r] t] Hin.
      apply in_map_iff in Hin as (k & Hk & _). inversion Hk; subst.
      apply both_closed_true; assumption. }
  2:{ reflexivity. }
  rewrite length_map, length_seq.
  set (s2 := set_counter (counter s1 + Z.of_nat n)%Z s1).
  assert (Hb : both_closed s2 lo ro = false) by (apply both_closed_false; exact Hopen).
  assert (Hst : start_timestamp s2 = Some (fps30 t0 0)) by reflexivity.
  assert (Hc : counter s2 = Z.of_nat (S n)) by (unfold s2, s1; cbn [counter set_counter]; lia).
  cbn [run]. rewrite (update_open s2 lo ro (fps30 t0 (S n)) Hb).
  rewrite (evaluate_closure_some s2 (fps30 t0 0) (fps30 t0 (S n)) Hst).
  fold d. rewrite Hc. cbn [fst snd].
  split; [reflexivity|].
  destruct (Z.leb _ _ && (Qle_bool _ d && Qle_bool _ _)).
  - destruct (after_open_fields s2
                (set_blink_events (blink_events s2 ++ [mkBlinkEvent (fps30 t0 (S n)) d])
                   (set_total_blinks (total_blinks s2 + 1) s2)) lo ro (fps30 t0 (S n)))
      as (H1 & H2 & H3 & H4 & _).
    rewrite H1, H2, H3, H4. repeat split.
  - destruct (after_open_fields s2 s2 lo ro (fps30 t0 (S n))) as (H1 & H2 & H3 & H4 & _).
    rewrite H1, H2, H3, H4. repeat split.
Qed.

(** The duration of a closure of [k] frames at 30 fps. *)
Lemma fps30_duration (t0 : Q) (k : nat) :
  (fps30 t0 k - fps30 t0 0) * 1000 == inject_Z (Z.of_nat k) * (100 # 3).
Proof. unfold fps30. simpl (Z.of_nat 0). ring. Qed.

Lemma intervals_cons (a : blink_event) (evs : list blink_event) :
  map (fun i => ts_at (a :: evs) i - ts_at (a :: evs) (i - 1)) (seq 1 (length evs))
  = spec_consecutive_gaps (a :: evs).
Proof.
  revert a. induction evs as [|b evs IH]; intros a; [reflexivity|].
  cbn [length seq map]. rewrite <- seq_shift, map_map.
  change (spec_consecutive_gaps (a :: b :: evs))
    with ((ev_timestamp b - ev_timestamp a) :: spec_consecutive_gaps (b :: evs)).
  f_equal. rewrite <- (IH b). apply map_ext_in. intros i Hi.
  apply in_seq in Hi. destruct i as [|i]; [lia|].
  unfold ts_at. cbn. rewrite Nat.sub_0_r. reflexivity.
Qed.

Lemma intervals_spec (evs : list blink_event) :
  intervals evs = spec_consecutive_gaps evs.
Proof.
  destruct evs as [|a evs]; [reflexivity|].
  unfold intervals. cbn [length]. rewrite Nat.sub_succ, Nat.sub_0_r.
  apply intervals_cons.
Qed.

Lemma filter_idem {A} (f : A -> bool) (l : list A) :
  filter f (filter f l) = filter f l.
Proof.
  induction l as [|x l IH]; simpl; [reflexivity|].
  destruct (f x) eqn:E; simpl; [rewrite E, IH|]; easy.
Qed.

End DetectorFacts.

Module DetectorClaims.

Import Detector DetectorFacts.
Local Open Scope Q_scope.

(** C1: at the end of a closure (the previous frames closed, so the
    counter is positive and the start of the closure is [t0], and the
    current sample has at least one eye at or above the threshold), [update]
    accepts a blink, adding 1 to [total_blinks] and appending exactly one
    event [{timestamp: now, duration: (now - t0) * 1000}], if and only if the
    closure lasted at least [consec_frames] frames and the duration lies in
    [[MIN_BLINK_DURATION, MAX_BLINK_DURATION]]; otherwise [total_blinks] and
    [blink_events] are unchanged.  In both cases the counter is reset to 0
    and the start to [None]. *)
Theorem update_closure_end_accept_iff (s : BlinkDetector) (t0 l r now : Q) :
  (1 <= consec_frames s)%Z ->
  (0 < counter s)%Z ->
  start_timestamp s = Some t0 ->
  (threshold s <= l \/ threshold s <= r) ->
  let s' := fst (update s l r now) in
  let d := (now - t0) * 1000 in
  counter s' = 0%Z /\ start_timestamp s' = None /\
  ((consec_frames s <= counter s)%Z /\ MIN_BLINK_DURATION <= d <= MAX_BLINK_DURATION ->
     total_blinks s' = (total_blinks s + 1)%Z /\
     blink_events s' = blink_events s ++ [mkBlinkEvent now d]) /\
  (~ ((consec_frames s <= counter s)%Z /\ MIN_BLINK_DURATION <= d <= MAX_BLINK_DURATION) ->
     total_blinks s' = total_blinks s /\ blink_events s' = blink_events s).
Proof.
  intros Hcf Hc Hs Hopen s' d. subst s'.
  rewrite update_open by (apply both_closed_false; exact Hopen).
  rewrite (evaluate_closure_some s t0 now Hs). cbn [fst].
  fold d.
  destruct (Z.leb _ _ && (Qle_bool _ d && Qle_bool d _)) eqn:Ea.
  - pose proof (proj1 (accept_cond_iff _ _ _) Ea) as Hcond.
    destruct (after_open_fields s
                (set_blink_events (blink_events s ++ [mkBlinkEvent now d])
                   (set_total_blinks (total_blinks s + 1) s)) l r now)
      as (H1 & H2 & H3 & H4 & _).
    rewrite H1, H2, H3, H4. cbn.
    split; [reflexivity | split; [reflexivity | split]].
    + intros _. split; reflexivity.
    + intros Hn. contradiction.
  - assert (Hncond : ~ ((consec_frames s <= counter s)%Z
                        /\ MIN_BLINK_DURATION <= d <= MAX_BLINK_DURATION)).
    { rewrite <- accept_cond_iff. congruence. }
    destruct (after_open_fields s s l r now) as (H1 & H2 & H3 & H4 & _).
    rewrite H1, H2, H3, H4.
    split; [reflexivity | split; [reflexivity | split]].
    + intros Hn. contradiction.
    + intros _. split; reflexivity.
Qed.

(** C2: for a detector with [consec_frames >= 1] in a state that
    satisfies the invariant (so in every state reached from construction), a
    sample with one eye at or above the threshold makes [update] return
    [False] and leaves the counter at 0; a frame counts as closed, returning
    [True] and extending the counter, exactly when both eyes are below the
    threshold. *)
Theorem update_open_returns_false (s : BlinkDetector) (l r t : Q) :
  ((threshold s <= l \/ threshold s <= r) ->
   inv s -> (1 <= consec_frames s)%Z ->
   snd (update s l r t) = Ret false /\ counter (fst (update s l r t)) = 0%Z) /\
  (l < threshold s /\ r < threshold s ->
   snd (update s l r t) = Ret true /\
   counter (fst (update s l r t)) = (counter s + 1)%Z).
Proof.
  split.
  - intros Hopen Hi Hcf.
    rewrite update_open by (apply both_closed_false; exact Hopen).
    destruct (Z_lt_le_dec 0 (counter s)) as [Hc|Hc].
    + destruct (inv_start s Hi Hc) as [t0 Ht0].
      rewrite (evaluate_closure_some s t0 t Ht0). cbn [fst snd].
      split; [reflexivity | apply after_open_fields].
    + unfold evaluate_closure.
      destruct (Z.leb_spec (consec_frames s) (counter s)); [lia|].
      split; [reflexivity | apply after_open_fields].
  - intros [Hl Hr]. rewrite update_closed by (apply both_closed_true; assumption).
    split; [reflexivity|]. cbn [fst counter set_counter].
    destruct (Z.eqb _ _); reflexivity.
Qed.

(** C2 (failing input): a detector built with [consec_frames = 0] raises
    a [TypeError] ([current_time - None]) on its first open-eye sample
    instead of returning [False]: the test [self.counter >=
    self.consec_frames] holds with no closure in progress. *)
Lemma update_open_fresh_raises :
  snd (update (init (22 # 100) 0) 1 1 0) = Raise TypeError.
Proof. reflexivity. Qed.

(** C8: calling [get_metrics now] a second time with the same [now] and
    no [update] in between returns the same metrics and leaves the same
    state: eviction is idempotent and the metrics are recomputed from the
    evicted lists.  This holds whatever [x ** 0.5] computes. *)
Theorem get_metrics_idempotent (pow_half : Q -> Q) (s : BlinkDetector) (now : Q) :
  get_metrics pow_half (fst (get_metrics pow_half s now)) now = get_metrics pow_half s now.
Proof.
  unfold get_metrics, evict_blinks, evict_ears. cbn.
  rewrite !filter_idem. reflexivity.
Qed.

(** C9: the invariant [counter > 0 <-> start_timestamp <> None] holds in a
    freshly constructed detector and is preserved by every call of
    [update] (also one that raises), [get_metrics] and [get_window_count],
    for every sample and timestamp. *)
Theorem inv_init_and_preserved :
  (forall (thr : Q) (cf : Z), inv (init thr cf)) /\
  (forall (s : BlinkDetector) (l r t : Q), inv s -> inv (fst (update s l r t))) /\
  (forall (pow_half : Q -> Q) (s : BlinkDetector) (t : Q),
      inv s -> inv (fst (get_metrics pow_half s t))) /\
  (forall (s : BlinkDetector) (t : Q), inv s -> inv (fst (get_window_count s t))).
Proof.
  split; [|split; [|split]].
  - intros thr cf. unfold inv. cbn. split; [lia | intros H; congruence].
  - intros s l r t Hi. destruct (both_closed s l r) eqn:Hb.
    + rewrite update_closed by exact Hb. cbn [fst].
      destruct (Z.eqb_spec (counter s) 0) as [H0|H0]; unfold inv in *; cbn.
      * split; [intros _; congruence | lia].
      * destruct (Z_lt_le_dec 0 (counter s)).
        -- split; [intros _; apply Hi; exact l0 | lia].
        -- split; [lia|]. intros Hn. apply Hi in Hn. lia.
    + rewrite update_open by exact Hb.
      destruct (evaluate_closure s t) as [s1|]; cbn [fst]; [|exact Hi].
      destruct (after_open_fields s s1 l r t) as (H1 & H2 & _).
      unfold inv. rewrite H1, H2. split; [lia | intros H; congruence].
  - intros pow_half s t Hi. exact Hi.
  - intros s t Hi. exact Hi.
Qed.

(** C10: [get_metrics now] and [get_window_count now] leave [threshold],
    [consec_frames], [counter], [start_timestamp] and [total_blinks]
    unchanged; their only effect is to keep, in order and unmodified, the
    entries of [blink_events] (and, for [get_metrics], of
    [ear_open_events]) with [now - timestamp <= WINDOW_SIZE_SEC], dropping the
    older ones. *)
Theorem metrics_reads_only_evict (pow_half : Q -> Q) (s : BlinkDetector) (now : Q) :
  let s1 := fst (get_metrics pow_half s now) in
  let s2 := fst (get_window_count s now) in
  threshold s1 = threshold s /\ consec_frames s1 = consec_frames s /\
  counter s1 = counter s /\ start_timestamp s1 = start_timestamp s /\
  total_blinks s1 = total_blinks s /\
  blink_events s1 = filter (fun e => in_window now (ev_timestamp e)) (blink_events s) /\
  ear_open_events s1 = filter (fun e => in_window now (eo_timestamp e)) (ear_open_events s) /\
  threshold s2 = threshold s /\ consec_frames s2 = consec_frames s /\
  counter s2 = counter s /\ start_timestamp s2 = start_timestamp s /\
  total_blinks s2 = total_blinks s /\
  blink_events s2 = filter (fun e => in_window now (ev_timestamp e)) (blink_events s) /\
  ear_open_events s2 = ear_open_events s.
Proof. repeat split. Qed.

(** C3: a detector with threshold 0.23 and [consec_frames = 3], fed 4
    frames at 30 fps with both EARs at 0.10 and then a frame at 0.30,
    returns [True] on the 4 closed frames and [False] on the 5th call; it
    then holds [total_blinks = 1] and a single event at the reopening time
    whose duration is 400/3 ms (about 133 ms), inside
    [[MIN_BLINK_DURATION, MAX_BLINK_DURATION]]. *)
Theorem scenario_four_closed_frames_accepted (t0 : Q) :
  let res := run (init (23 # 100) 3)
                 (closure_scenario (10 # 100) (10 # 100) (30 # 100) (30 # 100) t0 4) in
  snd res = [Ret true; Ret true; Ret true; Ret true; Ret false] /\
  total_blinks (fst res) = 1%Z /\
  exists d, blink_events (fst res) = [mkBlinkEvent (fps30 t0 4) d] /\
            d == 400 # 3 /\ MIN_BLINK_DURATION <= d <= MAX_BLINK_DURATION.
Proof.
  assert (Hc : 10 # 100 < 23 # 100) by reflexivity.
  assert (Ho : 23 # 100 <= 30 # 100 \/ 23 # 100 <= 30 # 100)
    by (left; apply Qle_bool_iff; reflexivity).
  pose proof (scenario_run (23 # 100) 3 (10 # 100) (10 # 100) (30 # 100) (30 # 100) t0 3
                Hc Hc Ho) as H.
  cbv zeta in H. destruct H as (Hout & _ & _ & Hacc).
  intros res. split; [exact Hout|].
  pose proof (fps30_duration t0 4) as Hd.
  rewrite (Qle_bool_Qeq _ _ _ _ (Qeq_refl _) Hd),
          (Qle_bool_Qeq _ _ _ _ Hd (Qeq_refl _)) in Hacc.
  match type of Hacc with
  | (if ?c then _ else _) => replace c with true in Hacc by reflexivity
  end.
  destruct Hacc as [Htot Hev].
  split; [exact Htot|].
  eexists. split; [exact Hev|]. rewrite Hd. split; [reflexivity|].
  split; discriminate.
Qed.

(** C5: whatever the threshold and [consec_frames], when both eyes stay
    below the threshold for 18 frames at 30 fps (600 ms from the first
    closed frame to the reopening) and then reopen, [total_blinks] is still
    0 after the reopening call, the 600 ms duration being above
    [MAX_BLINK_DURATION]. *)
Theorem scenario_600ms_closure_rejected (thr : Q) (cf : Z) (lc rc lo ro t0 : Q) :
  lc < thr -> rc < thr -> (thr <= lo \/ thr <= ro) ->
  total_blinks (fst (run (init thr cf) (closure_scenario lc rc lo ro t0 18))) = 0%Z.
Proof.
  intros Hlc Hrc Hopen.
  pose proof (scenario_run thr cf lc rc lo ro t0 17 Hlc Hrc Hopen) as H.
  cbv zeta in H. destruct H as (_ & _ & _ & Hacc).
  pose proof (fps30_duration t0 18) as Hd.
  rewrite (Qle_bool_Qeq _ _ _ _ Hd (Qeq_refl _)) in Hacc.
  replace (Qle_bool (inject_Z (Z.of_nat 18) * (100 # 3)) MAX_BLINK_DURATION) with false
    in Hacc by reflexivity.
  rewrite !andb_false_r in Hacc. apply Hacc.
Qed.

(** C4 (amended): after eviction, with [n] events left in the window,
    [ibi] is the mean gap between consecutive event timestamps when
    [n > 1], and 0 when [n <= 1]: for a single event the code reports 0,
    not the time elapsed since it. *)
Theorem ibi_after_eviction (pow_half : Q -> Q) (s : BlinkDetector) (now : Q) :
  let evs := blink_events (fst (get_metrics pow_half s now)) in
  let m := snd (get_metrics pow_half s now) in
  ((1 < length evs)%nat -> ibi m = spec_mean_gap evs) /\
  ((length evs <= 1)%nat -> ibi m = 0).
Proof.
  intros evs m. subst evs m. unfold get_metrics. cbn [fst snd blink_events ear_open_events
    set_blink_events set_ear_open_events].
  set (evs := evict_blinks now (blink_events s)).
  unfold compute_metrics.
  destruct (length evs) as [|[|k]] eqn:E; cbn [Nat.eqb Nat.ltb Nat.leb ibi].
  - split; intros; [lia | reflexivity].
  - split; intros; [lia | reflexivity].
  - split; intros; [|lia].
    unfold spec_mean_gap. rewrite intervals_spec. reflexivity.
Qed.

(** C4 (counterexample): with a single event at time 0 in the window,
    [get_metrics] at time 10 reports [ibi = 0], not the 10 seconds elapsed
    since the event. *)
Lemma ibi_single_event_is_zero :
  let s := set_blink_events [mkBlinkEvent 0 200] (init (22 # 100) 3) in
  ibi (snd (get_metrics (fun x => x) s 10)) = 0 /\
  ~ (ibi (snd (get_metrics (fun x => x) s 10)) == 10 - 0).
Proof. split; [reflexivity | discriminate]. Qed.

(** C6 (amended): [__init__] validates nothing.  For every threshold
    (negative ones included) and every [consec_frames] it stores both
    unchanged and returns a detector in the initial state (the duration
    bounds are the module constants [MIN_BLINK_DURATION] and
    [MAX_BLINK_DURATION], not arguments).  With [consec_frames >= 1] the
    fresh detector works whatever the threshold: its first [update] returns
    [True] exactly when both EARs are below the threshold and [False]
    otherwise. *)
Theorem init_no_validation (thr : Q) (cf : Z) :
  let s := init thr cf in
  threshold s = thr /\ consec_frames s = cf /\ counter s = 0%Z /\
  total_blinks s = 0%Z /\ blink_events s = [] /\ ear_open_events s = [] /\
  start_timestamp s = None /\
  (forall l r t : Q, (1 <= cf)%Z ->
     snd (update s l r t) = Ret (Qlt_bool l thr && Qlt_bool r thr)).
Proof.
  intros s. do 7 (split; [reflexivity|]).
  intros l r t Hcf. destruct (both_closed s l r) eqn:Hb.
  - rewrite update_closed by exact Hb. cbn [snd].
    unfold both_closed in Hb. cbn [threshold s init] in Hb. rewrite Hb. reflexivity.
  - rewrite update_open by exact Hb. unfold evaluate_closure.
    cbn [consec_frames counter start_timestamp s init].
    destruct (Z.leb_spec cf 0) as [H0|H0]; [lia|]. cbn [snd].
    unfold both_closed in Hb. cbn [threshold s init] in Hb. rewrite Hb. reflexivity.
Qed.

(** C6 (counterexample): the constructor accepts a negative threshold and
    returns a working detector, whose [update] returns [False]. *)
Lemma init_negative_threshold_works :
  snd (update (init (-1) 3) (1 # 10) (1 # 10) 0) = Ret false /\
  snd (get_window_count (init (-1) 3) 0) = 0%nat.
Proof. split; reflexivity. Qed.

End DetectorClaims.

(** * Properties of the EAR estimator *)

Module EarFacts.

Import Ear.
Local Open Scope R_scope.

(** An index Python rejects on a list of length [n]. *)
Definition out_of_range {A} (l : list A) (i : Z) : Prop :=
  (Z.of_nat (length l) <= i)%Z \/ (i < - Z.of_nat (length l))%Z.

Lemma py_index_out_of_range {A} (l : list A) (i : Z) :
  out_of_range l i -> py_index l i = Err IndexError.
Proof.
  unfold out_of_range, py_index. intros [H|H].
  - destruct (Z.leb_spec 0 i); [|lia].
    destruct (Z.leb_spec 0 i); [|lia].
    rewrite (proj2 (nth_error_None l (Z.to_nat i))) by lia. reflexivity.
  - destruct (Z.leb_spec 0 i); [lia|].
    destruct (Z.leb_spec 0 (Z.of_nat (length l) + i)); [lia|reflexivity].
Qed.

Lemma map_result_err {A B} (f : A -> result B) (xs : list A) (x : A) (e : ear_exn) :
  In x xs -> f x = Err e -> exists e', map_result f xs = Err e'.
Proof.
  induction xs as [|y xs IH]; intros Hin Hf; [destruct Hin|].
  destruct Hin as [<-|Hin]; simpl.
  - rewrite Hf. eexists; reflexivity.
  - destruct (f y); simpl; [|eexists; reflexivity].
    destruct (IH Hin Hf) as [e' ->]. eexists; reflexivity.
Qed.

(** The value computed once all six lookups succeed. *)
Lemma calculate_ear_lookup (lms : list landmark) (a b c d e f : Z)
    (pa pb pc pd pe pf : landmark) (w h : R) :
  py_index lms a = Ok pa -> py_index lms b = Ok pb ->
  py_index lms c = Ok pc -> py_index lms d = Ok pd ->
  py_index lms e = Ok pe -> py_index lms f = Ok pf ->
  calculate_ear (Some lms) [a; b] [(c, d); (e, f)] w h =
    np_div (np_norm_diff (lx pc * w, ly pc * h) (lx pd * w, ly pd * h)
            + np_norm_diff (lx pe * w, ly pe * h) (lx pf * w, ly pf * h))
           (2 * np_norm_diff (lx pa * w, ly pa * h) (lx pb * w, ly pb * h)).
Proof.
  intros Ha Hb Hc Hd He Hf.
  unfold calculate_ear, ear_body, map_result, pixel, rbind.
  rewrite Ha, Hb, Hc, Hd, He, Hf. reflexivity.
Qed.

Lemma rbind_ok {A B} (a : A) (k : A -> result B) : rbind (Ok a) k = k a.
Proof. reflexivity. Qed.

Lemma np_norm_diff_nonneg (p q : point) : 0 <= np_norm_diff p q.
Proof. apply R_sqrt.sqrt_pos. Qed.

End EarFacts.

Module EarClaims.

Import Ear EarFacts.
Local Open Scope R_scope.

(** C7 (counterexample): with a horizontal distance of 1e-9 (nonzero but
    approximately zero) and two vertical distances of 1, [calculate_ear]
    returns 1e9, not 0.0: no exception is raised, so the [except] clause
    returning 0.0 is not reached. *)
Lemma ear_tiny_horizontal_distance :
  calculate_ear
    (Some [mkLandmark 0 0; mkLandmark (1 / 1000000000) 0; mkLandmark 0 0; mkLandmark 0 1])
    [0%Z; 1%Z] [(2%Z, 3%Z); (2%Z, 3%Z)] 1 1 = Fin 1000000000.
Proof.
  rewrite (calculate_ear_lookup _ 0 1 2 3 2 3
             (mkLandmark 0 0) (mkLandmark (1 / 1000000000) 0) (mkLandmark 0 0)
             (mkLandmark 0 1) (mkLandmark 0 0) (mkLandmark 0 1))
    by reflexivity.
  unfold np_norm_diff. cbn [fst snd lx ly].
  replace ((0 * 1 - 0 * 1) * (0 * 1 - 0 * 1) + (0 * 1 - 1 * 1) * (0 * 1 - 1 * 1))
    with 1 by ring.
  replace ((0 * 1 - 1 / 1000000000 * 1) * (0 * 1 - 1 / 1000000000 * 1) + (0 * 1 - 0 * 1) * (0 * 1 - 0 * 1))
    with ((1 / 1000000000) * (1 / 1000000000)) by field.
  rewrite R_sqrt.sqrt_1, R_sqrt.sqrt_square by lra.
  unfold np_div. destruct (Req_EM_T (2 * (1 / 1000000000)) 0) as [H|H]; [lra|].
  f_equal. field.
Qed.

(** C7 (amended): [calculate_ear] returns exactly 0.0 when a landmark
    lookup raises: the landmarks object has no [landmark] attribute, or an
    index in [horizontal_indices] or in a pair of [vertical_indices] is out
    of range for the landmark list.  When the six lookups succeed it never
    raises either: it returns [(v_dist1 + v_dist2) / (2 * h_dist)] when
    [h_dist <> 0] (a large value when [h_dist] is tiny), and numpy's [inf]
    or [nan] when [h_dist = 0], not 0.0. *)
Theorem calculate_ear_cases :
  (forall hidx vidx w h, calculate_ear None hidx vidx w h = Fin 0) /\
  (forall (lms : list landmark) hidx vidx w h (i : Z),
     (In i hidx \/ exists j, In (i, j) vidx \/ In (j, i) vidx) ->
     out_of_range lms i ->
     calculate_ear (Some lms) hidx vidx w h = Fin 0) /\
  (forall (lms : list landmark) (a b c d e f : Z) (pa pb pc pd pe pf : landmark) (w h : R),
     py_index lms a = Ok pa -> py_index lms b = Ok pb ->
     py_index lms c = Ok pc -> py_index lms d = Ok pd ->
     py_index lms e = Ok pe -> py_index lms f = Ok pf ->
     let v_dist1 := np_norm_diff (lx pc * w, ly pc * h) (lx pd * w, ly pd * h) in
     let v_dist2 := np_norm_diff (lx pe * w, ly pe * h) (lx pf * w, ly pf * h) in
     let h_dist := np_norm_diff (lx pa * w, ly pa * h) (lx pb * w, ly pb * h) in
     (h_dist <> 0 ->
        calculate_ear (Some lms) [a; b] [(c, d); (e, f)] w h
        = Fin ((v_dist1 + v_dist2) / (2 * h_dist))) /\
     (h_dist = 0 ->
        calculate_ear (Some lms) [a; b] [(c, d); (e, f)] w h = PosInf \/
        calculate_ear (Some lms) [a; b] [(c, d); (e, f)] w h = NaN)).
Proof.
  split; [|split].
  - intros hidx vidx w h. unfold calculate_ear, ear_body.
    destruct hidx as [|x hidx].
    + cbn [map_result rbind].
      destruct vidx as [|[v1 v2] vidx]; [reflexivity|]. reflexivity.
    + reflexivity.
  - intros lms hidx vidx w h i Hin Hout.
    assert (Hp : pixel (Some lms) i w h = Err IndexError).
    { unfold pixel. rewrite (py_index_out_of_range lms i Hout). reflexivity. }
    unfold calculate_ear, ear_body.
    destruct (map_result (fun idx => pixel (Some lms) idx w h) hidx) as [hp|eh] eqn:Eh;
      [rewrite rbind_ok | reflexivity].
    destruct Hin as [Hin | (j & Hin)].
    + destruct (map_result_err (fun idx => pixel (Some lms) idx w h) hidx i IndexError Hin Hp)
        as [e' He']. congruence.
    + set (g := fun '(v1, v2) =>
                  rbind (pixel (Some lms) v1 w h) (fun v1_pt =>
                  rbind (pixel (Some lms) v2 w h) (fun v2_pt => Ok (v1_pt, v2_pt)))).
      assert (Hg : exists e', map_result g vidx = Err e').
      { destruct Hin as [Hin|Hin].
        - apply (map_result_err g vidx (i, j) IndexError Hin).
          unfold g. rewrite Hp. reflexivity.
        - destruct (pixel (Some lms) j w h) as [pj|ej] eqn:Ej.
          + apply (map_result_err g vidx (j, i) IndexError Hin).
            unfold g. rewrite Ej, Hp. reflexivity.
          + apply (map_result_err g vidx (j, i) ej Hin).
            unfold g. rewrite Ej. reflexivity. }
      destruct Hg as [e' He']. rewrite He'. reflexivity.
  - intros lms a b c d e f pa pb pc pd pe pf w h Ha Hb Hc Hd He Hf v_dist1 v_dist2 h_dist.
    rewrite (calculate_ear_lookup lms a b c d e f pa pb pc pd pe pf w h Ha Hb Hc Hd He Hf).
    fold v_dist1 v_dist2 h_dist. unfold np_div.
    split; intros Hh.
    + destruct (Req_EM_T (2 * h_dist) 0); [lra | reflexivity].
    + destruct (Req_EM_T (2 * h_dist) 0) as [_|Hne]; [|lra].
      pose proof (np_norm_diff_nonneg (lx pc * w, ly pc * h) (lx pd * w, ly pd * h)).
      pose proof (np_norm_diff_nonneg (lx pe * w, ly pe * h) (lx pf * w, ly pf * h)).
      destruct (Rlt_dec 0 (v_dist1 + v_dist2)); [left; reflexivity|].
      destruct (Rlt_dec (v_dist1 + v_dist2) 0); [unfold v_dist1, v_dist2 in *; lra|].
      right; reflexivity.
Qed.

End EarClaims.

(** * The theorems applied at concrete inputs *)

Module DetectorWitnesses.

Import Detector DetectorFacts DetectorClaims.
Local Open Scope Q_scope.

(** A closure of 4 frames started at 0, reopened at 4/30 s. *)
Lemma update_closure_end_accept_iff_witness :
  let s := set_start_timestamp (Some 0) (set_counter 4 (init (23 # 100) 3)) in
  (1 <= consec_frames s)%Z /\ (0 < counter s)%Z /\ start_timestamp s = Some 0 /\
  (threshold s <= 30 # 100 \/ threshold s <= 30 # 100) /\
  total_blinks (fst (update s (30 # 100) (30 # 100) (4 # 30))) = 1%Z.
Proof.
  intros s.
  assert (H1 : (1 <= consec_frames s)%Z) by (cbn; lia).
  assert (H2 : (0 < counter s)%Z) by (cbn; lia).
  assert (H3 : start_timestamp s = Some 0) by reflexivity.
  assert (H4 : threshold s <= 30 # 100 \/ threshold s <= 30 # 100)
    by (left; apply Qle_bool_iff; reflexivity).
  assert (Hacc : (consec_frames s <= counter s)%Z
                 /\ MIN_BLINK_DURATION <= ((4 # 30) - 0) * 1000 <= MAX_BLINK_DURATION).
  { split; [cbn; lia|]. split; apply Qle_bool_iff; reflexivity. }
  split; [exact H1|]. split; [exact H2|]. split; [exact H3|]. split; [exact H4|].
  destruct (update_closure_end_accept_iff s 0 (30 # 100) (30 # 100) (4 # 30) H1 H2 H3 H4)
    as (_ & _ & Hyes & _).
  exact (proj1 (Hyes Hacc)).
Defined.

(** An open sample on a fresh detector with the default configuration. *)
Lemma update_open_returns_false_witness :
  inv init_default /\ (1 <= consec_frames init_default)%Z /\
  (threshold init_default <= 1 \/ threshold init_default <= 1) /\
  snd (update init_default 1 1 0) = Ret false.
Proof.
  assert (Hi : inv init_default).
  { unfold inv. split; intros H; [discriminate | exfalso; apply H; reflexivity]. }
  assert (Hc : (1 <= consec_frames init_default)%Z)
    by (unfold init_default, init, EAR_CONSEC_FRAMES; cbn; lia).
  assert (Ho : threshold init_default <= 1 \/ threshold init_default <= 1)
    by (left; apply Qle_bool_iff; reflexivity).
  split; [exact Hi|]. split; [exact Hc|]. split; [exact Ho|].
  exact (proj1 (proj1 (update_open_returns_false init_default 1 1 0) Ho Hi Hc)).
Defined.

(** Two events one second apart, both inside the window at time 10. *)
Lemma ibi_after_eviction_witness :
  let s := set_blink_events [mkBlinkEvent 0 200; mkBlinkEvent 1 150] init_default in
  (1 < length (blink_events (fst (get_metrics (fun x => x) s 10))))%nat /\
  ibi (snd (get_metrics (fun x => x) s 10))
  = spec_mean_gap (blink_events (fst (get_metrics (fun x => x) s 10))).
Proof.
  intros s.
  assert (H : (1 < length (blink_events (fst (get_metrics (fun x => x) s 10))))%nat)
    by (apply Nat.ltb_lt; vm_compute; reflexivity).
  split; [exact H|].
  exact (proj1 (ibi_after_eviction (fun x => x) s 10) H).
Defined.

(** 18 closed frames at 0.10 from time 0, reopened at 0.30. *)
Lemma scenario_600ms_closure_rejected_witness :
  (10 # 100 < 23 # 100) /\ (23 # 100 <= 30 # 100 \/ 23 # 100 <= 30 # 100) /\
  total_blinks (fst (run (init (23 # 100) 3)
                      (closure_scenario (10 # 100) (10 # 100) (30 # 100) (30 # 100) 0 18)))
  = 0%Z.
Proof.
  assert (Hc : 10 # 100 < 23 # 100) by reflexivity.
  assert (Ho : 23 # 100 <= 30 # 100 \/ 23 # 100 <= 30 # 100)
    by (left; apply Qle_bool_iff; reflexivity).
  split; [exact Hc|]. split; [exact Ho|].
  exact (scenario_600ms_closure_rejected (23 # 100) 3 (10 # 100) (10 # 100)
           (30 # 100) (30 # 100) 0 Hc Hc Ho).
Defined.

(** A detector with a negative threshold, fed an open sample. *)
Lemma init_no_validation_witness :
  (1 <= 3)%Z /\ snd (update (init (-1) 3) (1 # 10) (1 # 10) 0) = Ret false.
Proof.
  assert (Hc : (1 <= 3)%Z) by lia.
  split; [exact Hc|].
  destruct (init_no_validation (-1) 3) as (_ & _ & _ & _ & _ & _ & _ & Hupd).
  exact (Hupd (1 # 10) (1 # 10) 0 Hc).
Defined.

(** The invariant after a closed and then an open sample. *)
Lemma inv_init_and_preserved_witness :
  inv (fst (update (fst (update init_default (1 # 10) (1 # 10) 0)) (3 # 10) (3 # 10) (1 # 30))).
Proof.
  destruct inv_init_and_preserved as (Hinit & Hupd & _ & _).
  apply Hupd. apply Hupd. apply Hinit.
Defined.

End DetectorWitnesses.

Module EarWitnesses.

Import Ear EarFacts EarClaims.
Local Open Scope R_scope.

(** Index 5 on a one-landmark list; then two coinciding horizontal
    landmarks. *)
Lemma calculate_ear_cases_witness :
  calculate_ear (Some [mkLandmark 0 0]) [0%Z; 5%Z] [(0%Z, 0%Z); (0%Z, 0%Z)] 1 1 = Fin 0 /\
  (calculate_ear (Some [mkLandmark 0 0; mkLandmark 0 1]) [0%Z; 0%Z] [(0%Z, 1%Z); (0%Z, 1%Z)] 1 1
     = PosInf \/
   calculate_ear (Some [mkLandmark 0 0; mkLandmark 0 1]) [0%Z; 0%Z] [(0%Z, 1%Z); (0%Z, 1%Z)] 1 1
     = NaN).
Proof.
  destruct calculate_ear_cases as (_ & Hoob & Hok).
  split.
  - apply (Hoob [mkLandmark 0 0] [0%Z; 5%Z] [(0%Z, 0%Z); (0%Z, 0%Z)] 1 1 5%Z).
    + left. right. left. reflexivity.
    + left. cbn. lia.
  - assert (Hz : np_norm_diff (lx (mkLandmark 0 0) * 1, ly (mkLandmark 0 0) * 1)
                              (lx (mkLandmark 0 0) * 1, ly (mkLandmark 0 0) * 1) = 0).
    { unfold np_norm_diff. cbn [fst snd lx ly].
      replace ((0 * 1 - 0 * 1) * (0 * 1 - 0 * 1) + (0 * 1 - 0 * 1) * (0 * 1 - 0 * 1))
        with 0 by ring.
      exact R_sqrt.sqrt_0. }
    exact (proj2 (Hok [mkLandmark 0 0; mkLandmark 0 1] 0%Z 0%Z 0%Z 1%Z 0%Z 1%Z
                    (mkLandmark 0 0) (mkLandmark 0 0) (mkLandmark 0 0) (mkLandmark 0 1)
                    (mkLandmark 0 0) (mkLandmark 0 1) 1 1
                    eq_refl eq_refl eq_refl eq_refl eq_refl eq_refl) Hz).
Defined.

End EarWitnesses.

(** * Further properties of the detector *)

Module DetectorExtra.

Import Detector DetectorFacts.
Local Open Scope Q_scope.

(** ** How one [update] changes the state *)

Lemma evaluate_closure_cases (s s1 : BlinkDetector) (t : Q) :
  evaluate_closure s t = Some s1 ->
  s1 = s \/
  exists d, MIN_BLINK_DURATION <= d <= MAX_BLINK_DURATION /\
    s1 = set_blink_events (blink_events s ++ [mkBlinkEvent t d])
           (set_total_blinks (total_blinks s + 1)%Z s).
Proof.
  unfold evaluate_closure. destruct (Z.leb _ _); [|intros [=]; left; auto].
  destruct (start_timestamp s) as [st|]; [|discriminate].
  destruct (Qle_bool _ _ && Qle_bool _ _) eqn:E; intros [=<-]; [right|left; reflexivity].
  apply andb_true_iff in E as [E1 E2]. apply Qle_bool_iff in E1, E2.
  eexists. split; [split; eassumption | reflexivity].
Qed.

Lemma update_shape (s : BlinkDetector) (l r t : Q) :
  let s' := fst (update s l r t) in
  threshold s' = threshold s /\ consec_frames s' = consec_frames s /\
  ((blink_events s' = blink_events s /\ total_blinks s' = total_blinks s) \/
   (exists d, MIN_BLINK_DURATION <= d <= MAX_BLINK_DURATION /\
      blink_events s' = blink_events s ++ [mkBlinkEvent t d] /\
      total_blinks s' = (total_blinks s + 1)%Z)) /\
  (ear_open_events s' = ear_open_events s \/
   (threshold s < (l + r) / 2 /\
    ear_open_events s' = ear_open_events s ++ [mkEarEvent t ((l + r) / 2)])).
Proof.
  intros s'. subst s'. destruct (both_closed s l r) eqn:Hb.
  - rewrite update_closed by exact Hb.
    destruct (Z.eqb _ _); cbn; repeat split; left; auto.
  - rewrite update_open by exact Hb.
    destruct (evaluate_closure s t) as [s1|] eqn:E; cbn [fst];
      [|repeat split; left; auto].
    assert (Hear : ear_open_events (after_open s s1 l r t) = ear_open_events s1 \/
                   (threshold s < (l + r) / 2 /\
                    ear_open_events (after_open s s1 l r t)
                    = ear_open_events s1 ++ [mkEarEvent t ((l + r) / 2)])).
    { unfold after_open. destruct (Qlt_bool _ _) eqn:Hq; [right|left; reflexivity].
      split; [apply Qlt_bool_iff; exact Hq | reflexivity]. }
    destruct (after_open_fields s s1 l r t) as (_ & _ & H3 & H4 & H5 & H6).
    rewrite H3, H4, H5, H6.
    destruct (evaluate_closure_cases s s1 t E) as [->|(d & Hd & ->)].
    + repeat split; [left; auto | exact Hear].
    + cbn in Hear |- *. repeat split; [right; exists d; auto | exact Hear].
Qed.

Lemma get_metrics_fields (pow_half : Q -> Q) (s : BlinkDetector) (now : Q) :
  fst (get_metrics pow_half s now) =
  set_ear_open_events (evict_ears now (ear_open_events s))
    (set_blink_events (evict_blinks now (blink_events s)) s).
Proof. reflexivity. Qed.

Lemma Forall_evict_blinks (P : blink_event -> Prop) (now : Q) (l : list blink_event) :
  Forall P l -> Forall P (evict_blinks now l).
Proof.
  intros H. apply Forall_forall. intros x Hx. apply filter_In in Hx as [Hx _].
  exact (proj1 (Forall_forall P l) H x Hx).
Qed.

Lemma Forall_evict_ears (P : ear_event -> Prop) (now : Q) (l : list ear_event) :
  Forall P l -> Forall P (evict_ears now l).
Proof.
  intros H. apply Forall_forall. intros x Hx. apply filter_In in Hx as [Hx _].
  exact (proj1 (Forall_forall P l) H x Hx).
Qed.

(** X1: every event in [blink_events] has a duration within
    [[MIN_BLINK_DURATION, MAX_BLINK_DURATION]]: true of a fresh detector and
    kept by [update], [get_metrics] and [get_window_count]. *)
Theorem durations_ok_preserved :
  (forall (thr : Q) (cf : Z), durations_ok (init thr cf)) /\
  (forall (s : BlinkDetector) (l r t : Q), durations_ok s -> durations_ok (fst (update s l r t))) /\
  (forall (pow_half : Q -> Q) (s : BlinkDetector) (t : Q),
      durations_ok s -> durations_ok (fst (get_metrics pow_half s t))) /\
  (forall (s : BlinkDetector) (t : Q), durations_ok s -> durations_ok (fst (get_window_count s t))).
Proof.
  unfold durations_ok. split; [|split; [|split]].
  - intros. constructor.
  - intros s l r t H. destruct (update_shape s l r t) as (_ & _ & [[-> _]|(d & Hd & -> & _)] & _);
      [exact H|]. apply Forall_app. split; [exact H | constructor; [exact Hd | constructor]].
  - intros pow_half s t H. apply Forall_evict_blinks. exact H.
  - intros s t H. apply Forall_evict_blinks. exact H.
Qed.

(** X2: every EAR sample in [ear_open_events] is strictly above the
    threshold: true of a fresh detector and kept by [update], [get_metrics]
    and [get_window_count]. *)
Theorem open_ears_ok_preserved :
  (forall (thr : Q) (cf : Z), open_ears_ok (init thr cf)) /\
  (forall (s : BlinkDetector) (l r t : Q), open_ears_ok s -> open_ears_ok (fst (update s l r t))) /\
  (forall (pow_half : Q -> Q) (s : BlinkDetector) (t : Q),
      open_ears_ok s -> open_ears_ok (fst (get_metrics pow_half s t))) /\
  (forall (s : BlinkDetector) (t : Q), open_ears_ok s -> open_ears_ok (fst (get_window_count s t))).
Proof.
  unfold open_ears_ok. split; [|split; [|split]].
  - intros. constructor.
  - intros s l r t H. destruct (update_shape s l r t) as (-> & _ & _ & [->|(Hlt & ->)]);
      [exact H|]. apply Forall_app. split; [exact H | constructor; [exact Hlt | constructor]].
  - intros pow_half s t H. apply Forall_evict_ears. exact H.
  - intros s t H. exact H.
Qed.

(** X3: the window never holds more events than [total_blinks]: true of a
    fresh detector and kept by [update], [get_metrics] and
    [get_window_count]. *)
Theorem count_ok_preserved :
  (forall (thr : Q) (cf : Z), count_ok (init thr cf)) /\
  (forall (s : BlinkDetector) (l r t : Q), count_ok s -> count_ok (fst (update s l r t))) /\
  (forall (pow_half : Q -> Q) (s : BlinkDetector) (t : Q),
      count_ok s -> count_ok (fst (get_metrics pow_half s t))) /\
  (forall (s : BlinkDetector) (t : Q), count_ok s -> count_ok (fst (get_window_count s t))).
Proof.
  unfold count_ok. split; [|split; [|split]].
  - intros. cbn. lia.
  - intros s l r t H. destruct (update_shape s l r t) as (_ & _ & [[-> ->]|(d & _ & -> & ->)] & _);
      [exact H|]. rewrite length_app. cbn [length]. lia.
  - intros pow_half s t H. rewrite get_metrics_fields.
    cbn [blink_events total_blinks set_ear_open_events set_blink_events]. unfold evict_blinks.
    pose proof (filter_length_le (fun e => in_window t (ev_timestamp e)) (blink_events s)). lia.
  - intros s t H. cbn [get_window_count fst blink_events total_blinks set_blink_events].
    unfold evict_blinks.
    pose proof (filter_length_le (fun e => in_window t (ev_timestamp e)) (blink_events s)). lia.
Qed.

(** X4: [total_blinks] never decreases: [update] raises it by at most 1,
    and [get_metrics] and [get_window_count] leave it unchanged. *)
Theorem total_blinks_monotone (pow_half : Q -> Q) (s : BlinkDetector) (l r t : Q) :
  (total_blinks s <= total_blinks (fst (update s l r t)) <= total_blinks s + 1)%Z /\
  total_blinks (fst (get_metrics pow_half s t)) = total_blinks s /\
  total_blinks (fst (get_window_count s t)) = total_blinks s.
Proof.
  split; [|split; reflexivity].
  destruct (update_shape s l r t) as (_ & _ & [[_ ->]|(d & _ & _ & ->)] & _); lia.
Qed.

(** ** The metrics *)

Lemma get_metrics_snd (pow_half : Q -> Q) (s : BlinkDetector) (now : Q) :
  snd (get_metrics pow_half s now) =
  compute_metrics pow_half (evict_blinks now (blink_events s)) (evict_ears now (ear_open_events s)).
Proof. reflexivity. Qed.

Lemma get_window_count_snd (s : BlinkDetector) (now : Q) :
  snd (get_window_count s now) = length (evict_blinks now (blink_events s)).
Proof. reflexivity. Qed.

Lemma py_len_succ {A} (x : A) (l : list A) : py_len (x :: l) == py_len l + 1.
Proof.
  unfold py_len. cbn [length]. rewrite Nat2Z.inj_succ, <- Z.add_1_r, inject_Z_plus.
  reflexivity.
Qed.

Lemma py_len_nonneg {A} (l : list A) : 0 <= py_len l.
Proof. unfold py_len. change 0 with (inject_Z 0). rewrite <- Zle_Qle. lia. Qed.

Lemma py_len_pos {A} (l : list A) : (0 < length l)%nat -> 0 < py_len l.
Proof. intros H. unfold py_len. change 0 with (inject_Z 0). rewrite <- Zlt_Qlt. lia. Qed.

Lemma fold_sum_lower (c : Q) (l : list Q) (a : Q) :
  Forall (fun x => c <= x) l -> a + c * py_len l <= fold_left Qplus l a.
Proof.
  revert a. induction l as [|x l IH]; intros a H; cbn [fold_left].
  - unfold py_len. cbn [length Z.of_nat]. change (inject_Z 0) with 0.
    rewrite Qmult_0_r, Qplus_0_r. apply Qle_refl.
  - inversion H as [|? ? Hx Hl]; subst.
    pose proof (IH (a + x) Hl). rewrite py_len_succ. Lqa.lra.
Qed.

Lemma fold_sum_upper (c : Q) (l : list Q) (a : Q) :
  Forall (fun x => x <= c) l -> fold_left Qplus l a <= a + c * py_len l.
Proof.
  revert a. induction l as [|x l IH]; intros a H; cbn [fold_left].
  - unfold py_len. cbn [length Z.of_nat]. change (inject_Z 0) with 0.
    rewrite Qmult_0_r, Qplus_0_r. apply Qle_refl.
  - inversion H as [|? ? Hx Hl]; subst.
    pose proof (IH (a + x) Hl). rewrite py_len_succ. Lqa.lra.
Qed.

Lemma burst_fold_bounds (evs : list blink_event) (l : list nat) (b : Z) (ib : bool) :
  (b <= fst (fold_left (burst_step evs) l (b, ib)) <= b + Z.of_nat (length l))%Z.
Proof.
  revert b ib. induction l as [|i l IH]; intros b ib; cbn [fold_left length].
  - cbn. lia.
  - assert (Hs : (b <= fst (burst_step evs (b, ib) i) <= b + 1)%Z).
    { unfold burst_step. destruct (Qle_bool _ _); [destruct (negb ib)|]; cbn; lia. }
    destruct (burst_step evs (b, ib) i) as [b' ib'].
    pose proof (IH b' ib'). cbn [fst] in Hs. lia.
Qed.

Lemma evict_all_stale (now : Q) (l : list blink_event) :
  Forall (fun e => WINDOW_SIZE_SEC < now - ev_timestamp e) l -> evict_blinks now l = [].
Proof.
  induction l as [|e l IH]; intros H; [reflexivity|].
  inversion H as [|? ? He Hl]; subst. unfold evict_blinks. cbn [filter].
  destruct (in_window now (ev_timestamp e)) eqn:E.
  - apply Qle_bool_iff in E. exfalso. exact (Qlt_not_le _ _ He E).
  - exact (IH Hl).
Qed.

(** X5: when every stored event is older than the window, [get_metrics]
    reports a blink rate, mean duration, duration variance, inter-blink
    interval and burst index of 0, and [get_window_count] reports 0. *)
Theorem metrics_empty_window (pow_half : Q -> Q) (s : BlinkDetector) (now : Q) :
  Forall (fun e => WINDOW_SIZE_SEC < now - ev_timestamp e) (blink_events s) ->
  let m := snd (get_metrics pow_half s now) in
  br m = 0 /\ mbd m = 0 /\ bdv m = 0 /\ ibi m = 0 /\ bbi m = 0 /\
  snd (get_window_count s now) = 0%nat.
Proof.
  intros H m. subst m. rewrite get_metrics_snd, get_window_count_snd, (evict_all_stale now _ H).
  repeat split.
Qed.

(** X6: with exactly one event [e] in the window, [get_metrics] reports a
    rate of 2 blinks per minute, a mean duration equal to [e]'s duration,
    and a duration variance, inter-blink interval and burst index of 0. *)
Theorem metrics_single_event (pow_half : Q -> Q) (s : BlinkDetector) (now : Q) (e : blink_event) :
  evict_blinks now (blink_events s) = [e] ->
  let m := snd (get_metrics pow_half s now) in
  br m == 2 /\ mbd m == ev_duration e /\ bdv m = 0 /\ ibi m = 0 /\ bbi m = 0.
Proof.
  intros H m. subst m. rewrite get_metrics_snd, H. unfold compute_metrics.
  cbn [length Nat.eqb Nat.ltb Nat.leb br mbd bdv ibi bbi].
  unfold py_len, py_sum, WINDOW_SIZE_SEC. cbn [length map fold_left].
  split; [reflexivity|]. split; [field | repeat split].
Qed.

(** X7: the blink rate is twice the number of events in the window (a
    30 s window, per minute): [br] of [get_metrics now] equals 2 times the
    count [get_window_count now] returns. *)
Theorem br_twice_window_count (pow_half : Q -> Q) (s : BlinkDetector) (now : Q) :
  br (snd (get_metrics pow_half s now)) == 2 * inject_Z (Z.of_nat (snd (get_window_count s now))).
Proof.
  rewrite get_metrics_snd, get_window_count_snd.
  set (evs := evict_blinks now (blink_events s)). unfold compute_metrics.
  destruct (length evs) as [|k] eqn:E; cbn [Nat.eqb br].
  - reflexivity.
  - destruct (Nat.ltb 1 (S k)); cbn [br]; unfold py_len, WINDOW_SIZE_SEC; rewrite E; field.
Qed.

(** X8: the burst index always lies in [[0, 1)]: at most one burst starts
    per gap, and a window of [n] events has [n - 1] gaps. *)
Theorem bbi_bounds (pow_half : Q -> Q) (s : BlinkDetector) (now : Q) :
  0 <= bbi (snd (get_metrics pow_half s now)) < 1.
Proof.
  rewrite get_metrics_snd.
  set (evs := evict_blinks now (blink_events s)). unfold compute_metrics.
  destruct (length evs) as [|k] eqn:E; cbn [Nat.eqb bbi]; [Lqa.lra|].
  destruct (Nat.ltb 1 (S k)) eqn:E1; cbn [bbi]; [|Lqa.lra].
  unfold burst_count.
  pose proof (burst_fold_bounds evs (seq 1 (length evs - 1)) 0 false) as Hb.
  rewrite length_seq in Hb.
  assert (Hpos : 0 < py_len evs) by (apply py_len_pos; lia).
  split.
  - apply Qle_shift_div_l; [exact Hpos|]. rewrite Qmult_0_l.
    change 0 with (inject_Z 0). rewrite <- Zle_Qle. lia.
  - apply Qlt_shift_div_r; [exact Hpos|]. rewrite Qmult_1_l.
    unfold py_len. rewrite <- Zlt_Qlt. lia.
Qed.

(** X9: when every stored event's duration lies in
    [[MIN_BLINK_DURATION, MAX_BLINK_DURATION]] (so in every state reached
    from construction, see X1) and the window is not empty, the mean blink
    duration [mbd] lies in the same interval. *)
Theorem mbd_within_bounds (pow_half : Q -> Q) (s : BlinkDetector) (now : Q) :
  durations_ok s ->
  (0 < snd (get_window_count s now))%nat ->
  MIN_BLINK_DURATION <= mbd (snd (get_metrics pow_half s now)) <= MAX_BLINK_DURATION.
Proof.
  intros Hd Hn. rewrite get_window_count_snd in Hn. rewrite get_metrics_snd.
  pose proof (Forall_evict_blinks _ now _ Hd) as Hd'.
  set (evs := evict_blinks now (blink_events s)) in *. unfold compute_metrics.
  destruct (length evs) as [|k] eqn:E; [lia|]. cbn [Nat.eqb].
  assert (Hlen : py_len evs == py_len (map ev_duration evs))
    by (unfold py_len; rewrite length_map; reflexivity).
  assert (Hpos : 0 < py_len evs) by (apply py_len_pos; lia).
  assert (Hlo : Forall (fun x => MIN_BLINK_DURATION <= x) (map ev_duration evs)).
  { apply Forall_map. eapply Forall_impl; [|exact Hd']. intros x [H _]. exact H. }
  assert (Hhi : Forall (fun x => x <= MAX_BLINK_DURATION) (map ev_duration evs)).
  { apply Forall_map. eapply Forall_impl; [|exact Hd']. intros x [_ H]. exact H. }
  pose proof (fold_sum_lower _ _ 0 Hlo) as H1. pose proof (fold_sum_upper _ _ 0 Hhi) as H2.
  rewrite <- Hlen in H1, H2.
  destruct (Nat.ltb 1 (S k)); cbn [mbd]; unfold py_sum; split.
  1,3: apply Qle_shift_div_l; [exact Hpos | Lqa.lra].
  all: apply Qle_shift_div_r; [exact Hpos | Lqa.lra].
Qed.

(** X10: the blink duration variance [bdv] is never negative. *)
Theorem bdv_nonneg (pow_half : Q -> Q) (s : BlinkDetector) (now : Q) :
  0 <= bdv (snd (get_metrics pow_half s now)).
Proof.
  rewrite get_metrics_snd.
  set (evs := evict_blinks now (blink_events s)). unfold compute_metrics.
  destruct (length evs) as [|k] eqn:E; cbn [Nat.eqb bdv]; [Lqa.lra|].
  assert (Hpos : 0 < py_len evs) by (apply py_len_pos; lia).
  destruct (Nat.ltb 1 (S k)); cbn [bdv]; [|Lqa.lra].
  apply Qle_shift_div_l; [exact Hpos|]. rewrite Qmult_0_l.
  set (m := py_sum (map ev_duration evs) / py_len evs).
  assert (Hsq : Forall (fun x => 0 <= x) (map (fun d => (d - m) * (d - m)) (map ev_duration evs))).
  { apply Forall_forall. intros x Hx. apply in_map_iff in Hx as (d & <- & _).
    destruct (Qlt_le_dec (d - m) 0) as [Hn|Hn].
    - setoid_replace ((d - m) * (d - m)) with ((m - d) * (m - d)) by ring.
      apply Qmult_le_0_compat; Lqa.lra.
    - apply Qmult_le_0_compat; exact Hn. }
  pose proof (fold_sum_lower _ _ 0 Hsq) as H. unfold py_sum. Lqa.lra.
Qed.

Lemma SSorted_map_filter {A} (f : A -> bool) (g : A -> Q) (l : list A) :
  StronglySorted Qle (map g l) -> StronglySorted Qle (map g (filter f l)).
Proof.
  induction l as [|x l IHl]; intros Hs; [constructor|].
  cbn [map] in Hs. apply StronglySorted_inv in Hs as [Hs Hx].
  cbn [filter]. destruct (f x); [|exact (IHl Hs)]. cbn [map].
  constructor; [exact (IHl Hs)|].
  apply Forall_forall. intros q Hq. apply in_map_iff in Hq as (y & <- & Hy).
  apply filter_In in Hy as [Hy _].
  apply (proj1 (Forall_forall _ _) Hx). apply in_map. exact Hy.
Qed.

Lemma gaps_nonneg (l : list blink_event) :
  StronglySorted Qle (map ev_timestamp l) -> Forall (fun x => 0 <= x) (spec_consecutive_gaps l).
Proof.
  induction l as [|a l IH]; intros H; [constructor|].
  destruct l as [|b l]; [constructor|].
  cbn [map] in H. apply StronglySorted_inv in H as [H1 H2].
  change (spec_consecutive_gaps (a :: b :: l))
    with ((ev_timestamp b - ev_timestamp a) :: spec_consecutive_gaps (b :: l)).
  constructor.
  - inversion H2 as [|? ? Hab _]; subst. Lqa.lra.
  - apply IH. exact H1.
Qed.

(** X11: when the stored blink timestamps are in nondecreasing order (as
    X15 and X16 keep them), the inter-blink interval [ibi] is never
    negative: every gap it averages is. *)
Theorem ibi_nonneg (pow_half : Q -> Q) (s : BlinkDetector) (now : Q) :
  StronglySorted Qle (map ev_timestamp (blink_events s)) ->
  0 <= ibi (snd (get_metrics pow_half s now)).
Proof.
  intros Hs. rewrite get_metrics_snd.
  assert (Hs' : StronglySorted Qle (map ev_timestamp (evict_blinks now (blink_events s))))
    by (unfold evict_blinks; apply SSorted_map_filter; exact Hs).
  set (evs := evict_blinks now (blink_events s)) in *. unfold compute_metrics.
  destruct (length evs) as [|k] eqn:E; cbn [Nat.eqb ibi]; [Lqa.lra|].
  destruct (Nat.ltb 1 (S k)) eqn:E1; cbn [ibi]; [|Lqa.lra].
  apply Nat.ltb_lt in E1.
  assert (Hpos : 0 < py_len (intervals evs)).
  { apply py_len_pos. unfold intervals. rewrite length_map, length_seq. lia. }
  pose proof (fold_sum_lower 0 _ 0 (gaps_nonneg evs Hs')) as H.
  rewrite <- intervals_spec in H.
  unfold py_sum. apply Qle_shift_div_l; [exact Hpos|]. Lqa.lra.
Qed.

(** ** Reading the window twice *)

Lemma in_window_later (now now' ts : Q) :
  now <= now' -> in_window now' ts = true -> in_window now ts = true.
Proof.
  unfold in_window. rewrite !Qle_bool_iff. intros H1 H2. Lqa.lra.
Qed.

Lemma filter_filter_weaker {A} (f f' : A -> bool) (l : list A) :
  (forall x, f' x = true -> f x = true) -> filter f' (filter f l) = filter f' l.
Proof.
  intros Himp. induction l as [|x l IH]; [reflexivity|]. cbn [filter].
  destruct (f x) eqn:Ef; cbn [filter].
  - rewrite IH. reflexivity.
  - destruct (f' x) eqn:Ef'; [|exact IH].
    apply Himp in Ef'. congruence.
Qed.

(** X12: eviction composes: reading the window at [now] and then at a
    later [now'] leaves the same state and returns the same values as one
    read at [now'], for every pairing of [get_metrics] and
    [get_window_count]. *)
Theorem eviction_composes (pow_half : Q -> Q) (s : BlinkDetector) (now now' : Q) :
  now <= now' ->
  get_metrics pow_half (fst (get_metrics pow_half s now)) now' = get_metrics pow_half s now' /\
  get_window_count (fst (get_window_count s now)) now' = get_window_count s now' /\
  get_metrics pow_half (fst (get_window_count s now)) now' = get_metrics pow_half s now' /\
  get_window_count (fst (get_metrics pow_half s now)) now' =
    (set_ear_open_events (evict_ears now (ear_open_events s)) (fst (get_window_count s now')),
     snd (get_window_count s now')).
Proof.
  intros Hle.
  assert (Hb : evict_blinks now' (evict_blinks now (blink_events s))
               = evict_blinks now' (blink_events s)).
  { apply filter_filter_weaker. intros e. apply in_window_later. exact Hle. }
  assert (He : evict_ears now' (evict_ears now (ear_open_events s))
               = evict_ears now' (ear_open_events s)).
  { apply filter_filter_weaker. intros e. apply in_window_later. exact Hle. }
  unfold get_metrics, get_window_count.
  cbn [fst blink_events ear_open_events set_blink_events set_ear_open_events].
  rewrite Hb, He. repeat split.
Qed.

(** ** Whole runs *)

(** One [update] from a state satisfying [inv] with [consec_frames >= 1]:
    it returns, keeps [inv], and moves the counter and the total as
    follows. *)
Lemma update_step (s : BlinkDetector) (l r t : Q) :
  inv s -> (1 <= consec_frames s)%Z ->
  exists s' b, update s l r t = (s', Ret b) /\ inv s' /\
    threshold s' = threshold s /\ consec_frames s' = consec_frames s /\
    counter s' = (if both_closed s l r then counter s + 1 else 0)%Z /\
    (total_blinks s' = total_blinks s \/
     (both_closed s l r = false /\ (consec_frames s <= counter s)%Z /\
      total_blinks s' = (total_blinks s + 1)%Z)).
Proof.
  intros Hi Hc. destruct (both_closed s l r) eqn:Hb.
  - rewrite update_closed by exact Hb. eexists _, true. split; [reflexivity|].
    destruct (Z.eqb_spec (counter s) 0) as [H0|H0]; unfold inv in *; cbn.
    + split; [split; [intros _; congruence | lia]|]. rewrite H0. auto.
    + split; [|auto].
      destruct (Z_lt_le_dec 0 (counter s)) as [Hp|Hp].
      * pose proof (proj1 Hi Hp). split; intros; [assumption | lia].
      * split; intros H; [lia | apply Hi in H; lia].
  - rewrite update_open by exact Hb.
    destruct (Z.leb (consec_frames s) (counter s)) eqn:Hle.
    + pose proof Hle as Hle'. apply Z.leb_le in Hle'.
      destruct (inv_start s Hi) as [t0 Ht0]; [lia|].
      rewrite (evaluate_closure_some s t0 t Ht0). cbv zeta. rewrite Hle. cbn [andb].
      destruct (Qle_bool _ _ && Qle_bool _ _);
        eexists _, false; (split; [reflexivity|]);
        match goal with |- context [after_open s ?s1 l r t] =>
          destruct (after_open_fields s s1 l r t) as (E1 & E2 & E3 & _ & E5 & E6) end;
        unfold inv; rewrite E1, E2, E3, E5, E6;
        (split; [split; [lia | intros H; congruence]|]).
      * cbn. split; [reflexivity|]. split; [reflexivity|]. split; [reflexivity|]. right. auto.
      * auto.
    + assert (Hev : evaluate_closure s t = Some s)
        by (unfold evaluate_closure; rewrite Hle; reflexivity).
      rewrite Hev. eexists _, false. split; [reflexivity|].
      destruct (after_open_fields s s l r t) as (E1 & E2 & E3 & _ & E5 & E6).
      unfold inv. rewrite E1, E2, E3, E5, E6.
      split; [split; [lia | intros H; congruence]|]. auto.
Qed.

(** X13: from any state satisfying [inv] with [consec_frames >= 1] (every
    state reached from [BlinkDetector()]), feeding any samples never raises:
    there is one [Ret] outcome per sample and the final state still
    satisfies [inv]. *)
Theorem run_never_raises (s : BlinkDetector) (xs : list sample) :
  inv s -> (1 <= consec_frames s)%Z ->
  length (snd (run s xs)) = length xs /\
  Forall (fun o => exists b, o = Ret b) (snd (run s xs)) /\
  inv (fst (run s xs)).
Proof.
  revert s. induction xs as [|[[l r] t] xs IH]; intros s Hi Hc.
  - cbn. auto.
  - destruct (update_step s l r t Hi Hc) as (s' & b & Hu & Hi' & _ & Hc' & _).
    rewrite <- Hc' in Hc. destruct (IH s' Hi' Hc) as (H1 & H2 & H3).
    cbn [run]. rewrite Hu. destruct (run s' xs) as [s2 os]. cbn [fst snd length] in *.
    split; [rewrite H1; reflexivity|]. split; [|exact H3].
    constructor; [eauto | exact H2].
Qed.

(** ** [BlinkDetector] against the loop of src/main.py *)

Lemma main_sim (xs : list sample) (s : BlinkDetector) (st : MainLoop.main_state) :
  inv s -> consec_frames s = MainLoop.EAR_CONSEC_FRAMES ->
  threshold s = MainLoop.EAR_THRESHOLD ->
  counter s = MainLoop.blink_counter st ->
  (total_blinks s <= MainLoop.m_total_blinks st)%Z ->
  counter (fst (run s xs)) = MainLoop.blink_counter (MainLoop.main_run st (map drop_time xs)) /\
  (total_blinks (fst (run s xs)) <= MainLoop.m_total_blinks (MainLoop.main_run st (map drop_time xs)))%Z.
Proof.
  revert s st. induction xs as [|[[l r] t] xs IH]; intros s st Hi Hcf Hth Hcnt Htot.
  - cbn. auto.
  - assert (Hc1 : (1 <= consec_frames s)%Z) by (rewrite Hcf; unfold MainLoop.EAR_CONSEC_FRAMES; lia).
    destruct (update_step s l r t Hi Hc1) as (s' & b & Hu & Hi' & Hth' & Hcf' & Hcnt' & Htot').
    cbn [run]. rewrite Hu. cbn [map drop_time MainLoop.main_run].
    replace (fst (let '(s2, os) := run s' xs in (s2, Ret b :: os))) with (fst (run s' xs))
      by (destruct (run s' xs); reflexivity).
    assert (Hbc : both_closed s l r =
                  Detector.Qlt_bool l MainLoop.EAR_THRESHOLD && Detector.Qlt_bool r MainLoop.EAR_THRESHOLD)
      by (unfold both_closed; rewrite Hth; reflexivity).
    apply IH; [exact Hi' | congruence | congruence | |].
    + rewrite Hcnt'. unfold MainLoop.main_frame. rewrite <- Hbc.
      destruct (both_closed s l r); cbn; [rewrite Hcnt; reflexivity | reflexivity].
    + unfold MainLoop.main_frame. rewrite <- Hbc. rewrite <- Hcf, <- Hcnt.
      destruct Htot' as [Ht | (Hb & Hle & Ht)].
      * destruct (both_closed s l r); cbn; [lia|].
        destruct (Z.leb _ _); lia.
      * rewrite Hb. cbn. apply Z.leb_le in Hle. rewrite Hle. lia.
Qed.

(** X14: [BlinkDetector()] fed the samples of a session keeps the same
    closed-frame counter as the loop of src/main.py fed the same EARs, and
    never counts more blinks than that loop: both use the threshold 0.22
    and 3 frames, but the detector also rejects closures outside
    [[100, 400]] ms. *)
Theorem detector_refines_main_loop (xs : list sample) :
  let st := MainLoop.main_run MainLoop.main_init (map drop_time xs) in
  counter (fst (run init_default xs)) = MainLoop.blink_counter st /\
  (total_blinks (fst (run init_default xs)) <= MainLoop.m_total_blinks st)%Z.
Proof.
  intros st. apply main_sim.
  - unfold inv. cbn. split; [lia | intros H; congruence].
  - reflexivity.
  - reflexivity.
  - reflexivity.
  - cbn. lia.
Qed.

(** ** Order of the stored events *)

Lemma SSorted_app_l {A} (R : A -> A -> Prop) (l1 l2 : list A) :
  StronglySorted R (l1 ++ l2) -> StronglySorted R l1.
Proof.
  induction l1 as [|x l1 IH]; intros H; [constructor|].
  apply StronglySorted_inv in H as [H1 H2]. constructor; [exact (IH H1)|].
  apply Forall_app in H2. exact (proj1 H2).
Qed.

Lemma SSorted_drop {A} (R : A -> A -> Prop) (l1 : list A) (x : A) (l2 : list A) :
  StronglySorted R (l1 ++ x :: l2) -> StronglySorted R (l1 ++ l2).
Proof.
  induction l1 as [|y l1 IH]; intros H; cbn in *.
  - apply StronglySorted_inv in H. exact (proj1 H).
  - apply StronglySorted_inv in H as [H1 H2]. constructor; [exact (IH H1)|].
    apply Forall_app in H2 as [H2 H3]. inversion H3; subst.
    apply Forall_app. split; assumption.
Qed.

Lemma events_then_update (s : BlinkDetector) (l r t : Q) (ts : list Q) :
  events_then s (t :: ts) -> events_then (fst (update s l r t)) ts.
Proof.
  intros [Hb He]. destruct (update_shape s l r t) as (_ & _ & Hbl & Hel). split.
  - destruct Hbl as [[-> _]|(d & _ & -> & _)].
    + exact (SSorted_drop _ _ _ _ Hb).
    + rewrite map_app, <- app_assoc. exact Hb.
  - destruct Hel as [->|(_ & ->)].
    + exact (SSorted_drop _ _ _ _ He).
    + rewrite map_app, <- app_assoc. exact He.
Qed.

(** X15: when the sample times are nondecreasing and no later than any
    stored timestamp precedes them, the timestamps of [blink_events] and of
    [ear_open_events] stay in nondecreasing order through a run, also when
    it stops at a raise. *)
Theorem run_keeps_events_sorted (s : BlinkDetector) (xs : list sample) :
  events_then s (map sample_time xs) ->
  StronglySorted Qle (map ev_timestamp (blink_events (fst (run s xs)))) /\
  StronglySorted Qle (map eo_timestamp (ear_open_events (fst (run s xs)))).
Proof.
  revert s. induction xs as [|[[l r] t] xs IH]; intros s H.
  - destruct H as [Hb He]. rewrite app_nil_r in Hb, He. cbn. auto.
  - cbn [map sample_time] in H. apply (events_then_update s l r t) in H.
    cbn [run]. destruct (update s l r t) as [s1 o]. cbn [fst] in H.
    destruct o as [b|e].
    + destruct (run s1 xs) as [s2 os] eqn:Er. cbn [fst].
      pose proof (IH s1 H) as Hr. rewrite Er in Hr. exact Hr.
    + destruct H as [Hb He]. cbn [fst].
      exact (conj (SSorted_app_l _ _ _ Hb) (SSorted_app_l _ _ _ He)).
Qed.

(** X16: reading the window keeps the stored timestamps in order:
    [get_metrics] and [get_window_count] only drop entries. *)
Theorem reads_keep_events_sorted (pow_half : Q -> Q) (s : BlinkDetector) (now : Q) :
  events_then s [] ->
  events_then (fst (get_metrics pow_half s now)) [] /\
  events_then (fst (get_window_count s now)) [].
Proof.
  unfold events_then. rewrite !app_nil_r. intros [Hb He].
  cbn [get_metrics get_window_count fst blink_events ear_open_events
       set_blink_events set_ear_open_events].
  unfold evict_blinks, evict_ears.
  repeat split; first [apply SSorted_map_filter; assumption | assumption].
Qed.

End DetectorExtra.

Module EarExtra.

Import Ear EarFacts.
Local Open Scope R_scope.

Lemma ear_body_ok (lms : landmarks_obj) (hidx : list Z) (vidx : list (Z * Z)) (w h : R) (v : f64) :
  ear_body lms hidx vidx w h = Ok v ->
  exists a b, 0 <= a /\ 0 <= b /\ v = np_div a (2 * b).
Proof.
  unfold ear_body.
  destruct (map_result _ hidx) as [hp|]; cbn [rbind]; [|discriminate].
  destruct (map_result _ vidx) as [vp|]; cbn [rbind]; [|discriminate].
  destruct (py_index vp 0) as [vp0|]; cbn [rbind]; [|discriminate].
  destruct (py_index vp 1) as [vp1|]; cbn [rbind]; [|discriminate].
  destruct (py_index hp 0) as [hp0|]; cbn [rbind]; [|discriminate].
  destruct (py_index hp 1) as [hp1|]; cbn [rbind]; [|discriminate].
  intros [= <-]. do 2 eexists. split; [|split; [|reflexivity]].
  - apply Rplus_le_le_0_compat; apply np_norm_diff_nonneg.
  - apply np_norm_diff_nonneg.
Qed.

(** X17: [calculate_ear] never returns [-inf], and a finite result is never
    negative: both distances of the quotient are norms. *)
Theorem calculate_ear_nonneg (lms : landmarks_obj) (hidx : list Z) (vidx : list (Z * Z)) (w h : R) :
  match calculate_ear lms hidx vidx w h with
  | Fin r => 0 <= r
  | NegInf => False
  | PosInf | NaN => True
  end.
Proof.
  unfold calculate_ear. destruct (ear_body lms hidx vidx w h) as [v|] eqn:E; [|lra].
  apply ear_body_ok in E as (a & b & Ha & Hb & ->). unfold np_div.
  destruct (Req_EM_T (2 * b) 0) as [H0|H0].
  - destruct (Rlt_dec 0 a); [trivial|]. destruct (Rlt_dec a 0); [lra | trivial].
  - destruct (Rle_lt_or_eq_dec 0 b Hb) as [Hp|Hz]; [|subst b; lra].
    unfold Rdiv. apply Rle_mult_inv_pos; lra.
Qed.

Lemma np_norm_diff_sym (p q : point) : np_norm_diff p q = np_norm_diff q p.
Proof. unfold np_norm_diff. f_equal. ring. Qed.

(** X18: [calculate_ear] is unchanged when the two horizontal landmarks are
    swapped, the two vertical pairs are swapped, and each pair is reversed:
    the eye read in mirror order gives the same EAR, also when an index is
    out of range or the landmarks are missing. *)
Theorem calculate_ear_mirror (lms : landmarks_obj) (a b c d e f : Z) (w h : R) :
  calculate_ear lms [a; b] [(c, d); (e, f)] w h = calculate_ear lms [b; a] [(f, e); (d, c)] w h.
Proof.
  destruct lms as [l|]; [|reflexivity].
  unfold calculate_ear, ear_body. cbn [map_result pixel rbind].
  destruct (py_index l a) as [pa|]; destruct (py_index l b) as [pb|];
  destruct (py_index l c) as [pc|]; destruct (py_index l d) as [pd|];
  destruct (py_index l e) as [pe|]; destruct (py_index l f) as [pf|];
  cbn [rbind]; try reflexivity.
  cbn. change (Pos.to_nat 1) with 1%nat. cbn [nth_error rbind fst snd].
  rewrite (np_norm_diff_sym (lx pb * w, ly pb * h)), Rplus_comm,
    (np_norm_diff_sym (lx pf * w, ly pf * h)), (np_norm_diff_sym (lx pd * w, ly pd * h)).
  reflexivity.
Qed.

End EarExtra.

Module ExtraWitnesses.

Import Detector DetectorExtra.
Local Open Scope Q_scope.

(** One closed and one open frame from a fresh detector, then two reads. *)
Lemma durations_ok_preserved_witness :
  durations_ok (fst (get_window_count (fst (get_metrics (fun x => x)
    (fst (update (fst (update init_default (1 # 10) (1 # 10) 0)) (3 # 10) (3 # 10) (1 # 30))) 1)) 1)).
Proof.
  destruct durations_ok_preserved as (Hinit & Hupd & Hgm & Hgw).
  apply Hgw. apply Hgm. apply Hupd. apply Hupd. apply Hinit.
Defined.

Lemma open_ears_ok_preserved_witness :
  open_ears_ok (fst (get_window_count (fst (get_metrics (fun x => x)
    (fst (update (fst (update init_default (1 # 10) (1 # 10) 0)) (3 # 10) (3 # 10) (1 # 30))) 1)) 1)).
Proof.
  destruct open_ears_ok_preserved as (Hinit & Hupd & Hgm & Hgw).
  apply Hgw. apply Hgm. apply Hupd. apply Hupd. apply Hinit.
Defined.

Lemma count_ok_preserved_witness :
  count_ok (fst (get_window_count (fst (get_metrics (fun x => x)
    (fst (update (fst (update init_default (1 # 10) (1 # 10) 0)) (3 # 10) (3 # 10) (1 # 30))) 1)) 1)).
Proof.
  destruct count_ok_preserved as (Hinit & Hupd & Hgm & Hgw).
  apply Hgw. apply Hgm. apply Hupd. apply Hupd. apply Hinit.
Defined.

(** A detector holding one 200 ms blink at time 0, read at 100 s. *)
Lemma metrics_empty_window_witness :
  let s := mkDetector (22 # 100) 3 0 1 [mkBlinkEvent 0 200] [] None in
  Forall (fun e => WINDOW_SIZE_SEC < 100 - ev_timestamp e) (blink_events s) /\
  bbi (snd (get_metrics (fun x => x) s 100)) = 0.
Proof.
  intros s.
  assert (H : Forall (fun e => WINDOW_SIZE_SEC < 100 - ev_timestamp e) (blink_events s))
    by (constructor; [vm_compute; reflexivity | constructor]).
  split; [exact H|].
  exact (proj1 (proj2 (proj2 (proj2 (proj2 (metrics_empty_window (fun x => x) s 100 H)))))).
Defined.

(** The same detector read at 10 s. *)
Lemma metrics_single_event_witness :
  let s := mkDetector (22 # 100) 3 0 1 [mkBlinkEvent 0 200] [] None in
  evict_blinks 10 (blink_events s) = [mkBlinkEvent 0 200] /\
  mbd (snd (get_metrics (fun x => x) s 10)) == 200.
Proof.
  intros s.
  assert (H : evict_blinks 10 (blink_events s) = [mkBlinkEvent 0 200]) by reflexivity.
  split; [exact H|].
  exact (proj1 (proj2 (metrics_single_event (fun x => x) s 10 (mkBlinkEvent 0 200) H))).
Defined.

(** Two stored blinks of 150 and 250 ms, read at 10 s. *)
Lemma mbd_within_bounds_witness :
  let s := mkDetector (22 # 100) 3 0 2 [mkBlinkEvent 0 150; mkBlinkEvent 1 250] [] None in
  durations_ok s /\ (0 < snd (get_window_count s 10))%nat /\
  MIN_BLINK_DURATION <= mbd (snd (get_metrics (fun x => x) s 10)) <= MAX_BLINK_DURATION.
Proof.
  intros s.
  assert (Hd : durations_ok s).
  { repeat constructor; apply Qle_bool_iff; reflexivity. }
  assert (Hn : (0 < snd (get_window_count s 10))%nat) by (apply Nat.ltb_lt; vm_compute; reflexivity).
  split; [exact Hd|]. split; [exact Hn|].
  exact (mbd_within_bounds (fun x => x) s 10 Hd Hn).
Defined.

(** Three stored blinks at 0, 1 and 4 s, read at 10 s. *)
Lemma ibi_nonneg_witness :
  let s := mkDetector (22 # 100) 3 0 3
             [mkBlinkEvent 0 150; mkBlinkEvent 1 250; mkBlinkEvent 4 200] [] None in
  StronglySorted Qle (map ev_timestamp (blink_events s)) /\
  0 <= ibi (snd (get_metrics (fun x => x) s 10)).
Proof.
  intros s.
  assert (H : StronglySorted Qle (map ev_timestamp (blink_events s))).
  { cbn. repeat constructor; apply Qle_bool_iff; reflexivity. }
  split; [exact H|].
  exact (ibi_nonneg (fun x => x) s 10 H).
Defined.

(** Reads at 5 s and then at 40 s. *)
Lemma eviction_composes_witness :
  let s := mkDetector (22 # 100) 3 0 2 [mkBlinkEvent 0 150; mkBlinkEvent 20 250]
             [mkEarEvent 3 (3 # 10)] None in
  5 <= 40 /\
  get_window_count (fst (get_window_count s 5)) 40 = get_window_count s 40.
Proof.
  intros s.
  assert (H : 5 <= 40) by (apply Qle_bool_iff; reflexivity).
  split; [exact H|].
  exact (proj1 (proj2 (eviction_composes (fun x => x) s 5 40 H))).
Defined.

Lemma inv_init_default : inv init_default.
Proof. unfold inv. split; intros H; [discriminate | exfalso; apply H; reflexivity]. Qed.

(** A fresh detector fed a closed and an open frame. *)
Lemma run_never_raises_witness :
  inv init_default /\ (1 <= consec_frames init_default)%Z /\
  length (snd (run init_default [((1 # 10), (1 # 10), 0); ((3 # 10), (3 # 10), (1 # 30))])) = 2%nat.
Proof.
  assert (Hc : (1 <= consec_frames init_default)%Z)
    by (unfold init_default, init, EAR_CONSEC_FRAMES; cbn; lia).
  split; [exact inv_init_default|]. split; [exact Hc|].
  exact (proj1 (run_never_raises init_default _ inv_init_default Hc)).
Defined.

(** Five closed frames and an open one at 30 fps from a fresh detector. *)
Lemma run_keeps_events_sorted_witness :
  let xs := closure_scenario (1 # 10) (1 # 10) (3 # 10) (3 # 10) 0 5 in
  events_then init_default (map sample_time xs) /\
  StronglySorted Qle (map ev_timestamp (blink_events (fst (run init_default xs)))).
Proof.
  intros xs.
  assert (H : events_then init_default (map sample_time xs)).
  { unfold events_then. cbn. split; repeat constructor; apply Qle_bool_iff; reflexivity. }
  split; [exact H|].
  exact (proj1 (run_keeps_events_sorted init_default xs H)).
Defined.

(** Two stored blinks and one open-eye sample, read at 25 s. *)
Lemma reads_keep_events_sorted_witness :
  let s := mkDetector (22 # 100) 3 0 2 [mkBlinkEvent 0 150; mkBlinkEvent 20 250]
             [mkEarEvent 3 (3 # 10)] None in
  events_then s [] /\ events_then (fst (get_metrics (fun x => x) s 25)) [].
Proof.
  intros s.
  assert (H : events_then s []).
  { unfold events_then. cbn. split; repeat constructor; apply Qle_bool_iff; reflexivity. }
  split; [exact H|].
  exact (proj1 (reads_keep_events_sorted (fun x => x) s 25 H)).
Defined.

End ExtraWitnesses.
